(** * star: a GitHub "watch" webhook relay to a Telegram chat

    A shallow embedding of [main.go]: the webhook handler, the [logging]
    and [tracing] middlewares, [getenv] and the start-up sequence of
    [main], followed by the properties of the HTTP surface.

    The third-party packages the program calls (net/http, gorilla/mux,
    logrus, go-playground/webhooks, telegram-bot-api, strconv, math) are
    modelled by their documented behaviour, each in a module of its own
    name.  What the outside world decides (the HMAC of a body, the JSON
    decoder, the Telegram API, the clock, the host name) enters as a
    parameter, so every theorem holds for all of its behaviours.  The
    handlers are written in a state monad for the runs in which every
    call returns; the one panic a request can set off, in [hook.Parse],
    is told apart by [webhook.Parse] and followed to the connection by
    [conn_serve].  A call that never returns is outside the model. *)

From Stdlib Require Import ZArith Lia Bool List Ascii String DecimalString.
From Stdlib Require Import Floats Uint63.
From Stdlib Require DecimalPos DecimalZ.
From stdpp Require Import base gmap strings list.

Local Open Scope Z_scope.

(** ** Byte strings *)

(** Go's ["\n"]. *)
Definition nl : string := String "010"%char EmptyString.

(** Go's slice expression [s[n:]] on a string: the bytes from index [n]
    on.  It panics at run time when [n] is beyond the length of [s],
    which is [None] here; at [n = len(s)] it is the empty string. *)
Fixpoint slice_from (s : string) (n : nat) : option string :=
  match n, s with
  | O, _ => Some s
  | S n', String _ s' => slice_from s' n'
  | S _, EmptyString => None
  end.

Module strings.

(** [strings.HasPrefix]. *)
Fixpoint HasPrefix (s prefix : string) {struct prefix} : bool :=
  match prefix, s with
  | EmptyString, _ => true
  | String p prefix', String c s' =>
      if Ascii.eqb p c then HasPrefix s' prefix' else false
  | String _ _, EmptyString => false
  end.

(** [strings.HasSuffix], on the reversed byte sequences. *)
Definition HasSuffix (s suffix : string) : bool :=
  HasPrefix (String.rev s) (String.rev suffix).

(** [strings.Contains]: [substr] starts at some offset of [s]. *)
Fixpoint Contains (s substr : string) : bool :=
  HasPrefix s substr
  || match s with
     | EmptyString => false
     | String _ s' => Contains s' substr
     end.

End strings.

(** ** strconv *)

Module strconv.

Definition maxInt64 : Z := 2 ^ 63 - 1.
Definition minInt64 : Z := - 2 ^ 63.
Definition maxUint64 : Z := 2 ^ 64 - 1.

(** [strconv.FormatInt(i, 10)]: the decimal digits of [i], with a
    leading minus sign when [i] is negative. *)
Definition FormatInt (i : Z) : string :=
  NilZero.string_of_int (Z.to_int i).

(** [strconv.Itoa]. *)
Definition Itoa (i : Z) : string := FormatInt i.

Inductive NumError := ErrSyntax | ErrRange.

Definition digit_of (c : ascii) : option Z :=
  let n := Z.of_N (Ascii.N_of_ascii c) in
  if (48 <=? n) && (n <=? 57) then Some (n - 48) else None.

(** The digit loop of [strconv.ParseUint(s, 10, 64)]: it stops at the
    first byte that is not a digit, and at the first overflow. *)
Fixpoint ParseUint_loop (s : string) (n : Z) : Z * option NumError :=
  match s with
  | EmptyString => (n, None)
  | String c s' =>
      match digit_of c with
      | None => (0, Some ErrSyntax)
      | Some d =>
          if maxUint64 / 10 + 1 <=? n then (maxUint64, Some ErrRange)
          else
            let n1 := n * 10 + d in
            if maxUint64 <? n1 then (maxUint64, Some ErrRange)
            else ParseUint_loop s' n1
      end
  end.

Definition ParseUint (s : string) : Z * option NumError :=
  match s with
  | EmptyString => (0, Some ErrSyntax)
  | _ => ParseUint_loop s 0
  end.

(** [strconv.ParseInt(s, 10, 64)].  A value out of range is returned
    clamped, together with the range error. *)
Definition ParseInt (s : string) : Z * option NumError :=
  match s with
  | EmptyString => (0, Some ErrSyntax)
  | String c s' =>
      let neg := Ascii.eqb c "-"%char in
      let digits := if Ascii.eqb c "+"%char || neg then s' else s in
      match ParseUint digits with
      | (_, Some ErrSyntax) => (0, Some ErrSyntax)
      | (un, _) =>
          let cutoff := 2 ^ 63 in
          if negb neg && (cutoff <=? un) then (cutoff - 1, Some ErrRange)
          else if neg && (cutoff <? un) then (- cutoff, Some ErrRange)
          else ((if neg then - un else un), None)
      end
  end.

End strconv.

(** ** The latency arithmetic: float64, math.Ceil and the conversion to int

    [int(math.Ceil(float64(ns) / 1000000.0))] is computed on IEEE 754
    binary64 numbers, which are Rocq's primitive floats. *)

Module math.

(** [float64(i)] for an [int64] [i]: the nearest binary64 number (the
    magnitude of the least [int64], [2^63], is converted apart: it is
    not a 63-bit integer). *)
Definition float64_of_int64 (i : Z) : float :=
  if i =? strconv.minInt64 then (-9223372036854775808)%float
  else if i <? 0 then PrimFloat.opp (PrimFloat.of_uint63 (Uint63.of_Z (- i)))
  else PrimFloat.of_uint63 (Uint63.of_Z i).

(** The integer part of a finite [f] with [0 <= f < 2^63], read off the
    mantissa: [f >= 1] is [M * 2^(e-52)] for a 53-bit integer [M], and
    its integer part is [M] shifted by [52-e].  This is the bit masking
    of Go's [math.Modf]. *)
Definition trunc_mag (f : float) : int :=
  if PrimFloat.ltb f 1%float then 0%uint63
  else
    let (m, ex) := PrimFloat.frshiftexp f in
    let M := PrimFloat.normfr_mantissa m in
    let e := Uint63.sub ex 2102%uint63 in
    if Uint63.ltb e 52%uint63 then Uint63.lsr M (Uint63.sub 52%uint63 e)
    else Uint63.lsl M (Uint63.sub e 52%uint63).

(** [math.Modf] on a finite [f >= 0]: the integer and the fractional
    part.  From [2^52] on every binary64 number is an integer. *)
Definition Modf (f : float) : float * float :=
  if PrimFloat.ltb f 1%float then (0%float, f)
  else if PrimFloat.leb 4503599627370496%float f then (f, 0%float)
  else
    let i := PrimFloat.of_uint63 (trunc_mag f) in
    (i, PrimFloat.sub f i).

(** [math.Floor]. *)
Definition Floor (x : float) : float :=
  if PrimFloat.eqb x 0%float || PrimFloat.is_nan x || PrimFloat.is_infinity x
  then x
  else if PrimFloat.ltb x 0%float then
    let (d, fract) := Modf (PrimFloat.opp x) in
    PrimFloat.opp
      (if negb (PrimFloat.eqb fract 0%float) then PrimFloat.add d 1%float
       else d)
  else fst (Modf x).

(** [math.Ceil(x) = -Floor(-x)]. *)
Definition Ceil (x : float) : float := PrimFloat.opp (Floor (PrimFloat.opp x)).

(** [int(x)] for a float64 [x] of magnitude below [2^63]: truncation
    towards zero.  (Go leaves the conversion of other values to the
    implementation; the latency, an [int64] divided by [10^6], is not
    among them.) *)
Definition int_of_float64 (x : float) : Z :=
  if PrimFloat.ltb x 0%float
  then - Uint63.to_Z (trunc_mag (PrimFloat.opp x))
  else Uint63.to_Z (trunc_mag x).

End math.

(** ** Errors

    A Go [error] value is either one of the sentinel errors exported by the
    webhook package, compared with [==] by identity, or some other error,
    kept by its text. *)

Inductive WebhookSentinel :=
  | EventNotSpecifiedToParse
  | InvalidHTTPMethod
  | MissingGithubEventHeader
  | MissingHubSignatureHeader
  | EventNotFound
  | ParsingPayload
  | HMACVerificationFailed.

Inductive error :=
  | WebhookError (e : WebhookSentinel)
  | OtherError (text : string).

#[global] Instance WebhookSentinel_eq_dec : EqDecision WebhookSentinel.
Proof. solve_decision. Defined.

#[global] Instance error_eq_dec : EqDecision error.
Proof. solve_decision. Defined.

(** ** net/http *)

Module http.

(** [http.Header] is [map[string][]string]. *)
Abbreviation Headers := (gmap string (list string)).

Definition byte_of (c : ascii) : Z := Z.of_N (Ascii.N_of_ascii c).
Definition ascii_of (n : Z) : ascii := Ascii.ascii_of_N (Z.to_N n).

Definition is_lower (c : ascii) : bool := (97 <=? byte_of c) && (byte_of c <=? 122).
Definition is_upper (c : ascii) : bool := (65 <=? byte_of c) && (byte_of c <=? 90).
Definition is_digit (c : ascii) : bool := (48 <=? byte_of c) && (byte_of c <=? 57).

(** [textproto.validHeaderFieldByte]: the token bytes of RFC 7230. *)
Definition validHeaderFieldByte (c : ascii) : bool :=
  is_lower c || is_upper c || is_digit c
  || bool_decide (byte_of c ∈ [33; 35; 36; 37; 38; 39; 42; 43; 45; 46; 94; 95; 96; 124; 126]).

Fixpoint all_valid (s : string) : bool :=
  match s with
  | EmptyString => true
  | String c s' => validHeaderFieldByte c && all_valid s'
  end.

(** The case loop of [textproto.canonicalMIMEHeaderKey]: upper case at the
    start and after each dash, lower case elsewhere. *)
Fixpoint canonical_case (upper : bool) (s : string) : string :=
  match s with
  | EmptyString => EmptyString
  | String c s' =>
      let c' :=
        if upper && is_lower c then ascii_of (byte_of c - 32)
        else if negb upper && is_upper c then ascii_of (byte_of c + 32)
        else c in
      String c' (canonical_case (Ascii.eqb c' "-"%char) s')
  end.

(** [textproto.CanonicalMIMEHeaderKey]: a key with a byte that is not a
    token byte is returned unchanged. *)
Definition CanonicalMIMEHeaderKey (s : string) : string :=
  if all_valid s then canonical_case true s else s.

(** [Header.Get]: the first value of the canonical key, or [""]. *)
Definition Get (h : Headers) (key : string) : string :=
  match h !! CanonicalMIMEHeaderKey key with
  | Some (v :: _) => v
  | _ => ""
  end.

(** [Header.Set] ([Set] is reserved in Rocq): the key now holds the
    single value. *)
Definition SetValue (h : Headers) (key value : string) : Headers :=
  <[CanonicalMIMEHeaderKey key := [value]]> h.

(** Keys and values of a [context.Context].  [key] is the program's own
    [type key int]; keys of any other type never compare equal to it. *)
Inductive ContextKey :=
  | key (k : Z)
  | foreignKey (name : string).

Inductive any :=
  | anyString (s : string)
  | anyInt (i : Z).

#[global] Instance ContextKey_eq_dec : EqDecision ContextKey.
Proof. solve_decision. Defined.

(** A context is the chain of [context.WithValue] nodes, innermost first. *)
Definition Context := list (ContextKey * any).

Definition WithValue (parent : Context) (k : ContextKey) (val : any) : Context :=
  (k, val) :: parent.

Fixpoint Value (ctx : Context) (k : ContextKey) : option any :=
  match ctx with
  | [] => None
  | (k', v) :: parent => if decide (k' = k) then Some v else Value parent k
  end.

(** The fields of [*http.Request] the program reads.  The handlers of
    this program never write to the header map of a request, so it is
    held by value. *)
Record Request := mkRequest {
  Method : string;
  URL_Path : string;
  Header : Headers;
  Body : string;
  RemoteAddr : string;
  ctx : Context
}.

(** [r.WithContext(ctx)]. *)
Definition WithContext (r : Request) (c : Context) : Request :=
  mkRequest (Method r) (URL_Path r) (Header r) (Body r) (RemoteAddr r) c.

Definition Referer (r : Request) : string := Get (Header r) "Referer".
Definition UserAgent (r : Request) : string := Get (Header r) "User-Agent".

Definition StatusOK : Z := 200.
Definition StatusNotFound : Z := 404.
Definition StatusMethodNotAllowed : Z := 405.

(** The server's [response], behind the [http.ResponseWriter] a handler
    receives: the header map the handler edits, whether the status line
    went out, the status and header that went out, and the body. *)
Record response := mkResponse {
  handlerHeader : Headers;
  wroteHeader : bool;
  status : Z;
  sentHeader : Headers;
  body : string
}.

Definition newResponse : response := mkResponse ∅ false 0 ∅ "".

(** [WriteHeader]: the first call fixes the status and the header. *)
Definition WriteHeader (code : Z) (w : response) : response :=
  if wroteHeader w then w
  else mkResponse (handlerHeader w) true code (handlerHeader w) (body w).

(** [Write]: an implicit [WriteHeader(http.StatusOK)] when none was
    made, then the bytes are appended to the body. *)
Definition Write (p : string) (w : response) : response :=
  let w' := WriteHeader StatusOK w in
  mkResponse (handlerHeader w') (wroteHeader w') (status w') (sentHeader w')
             (body w' +:+ p).

(** [w.Header().Set(key, value)]. *)
Definition SetHeader (k v : string) (w : response) : response :=
  mkResponse (SetValue (handlerHeader w) k v) (wroteHeader w) (status w)
             (sentHeader w) (body w).

(** [finishRequest]: a handler that wrote nothing answers 200. *)
Definition finishRequest (w : response) : response := WriteHeader StatusOK w.

End http.

(** ** logrus *)

Module logrus.

Inductive Level :=
  | PanicLevel | FatalLevel | ErrorLevel | WarnLevel | InfoLevel | DebugLevel.

#[global] Instance Level_eq_dec : EqDecision Level.
Proof. solve_decision. Defined.

(** The value of a field of a structured entry. *)
Inductive Field :=
  | FString (s : string)
  | FInt (i : Z)
  | FHeader (h : http.Headers).

(** An argument of a logging call. *)
Inductive Arg :=
  | AString (s : string)
  | AError (e : error).

(** One emitted entry: [Args] are the arguments of [Info], [Error] or
    [Fatal]; an entry made by [Printf], [Fatalf] or [Panicf] also keeps
    its format string. *)
Record Entry := mkEntry {
  level : Level;
  Data : list (string * Field);
  Format : option string;
  Args : list Arg
}.

Definition is_error (e : Entry) : bool := bool_decide (level e = ErrorLevel).

(** The entries of [l] at error level. *)
Definition errors (l : list Entry) : list Entry := filter (fun e => level e = ErrorLevel) l.

Definition field (e : Entry) (name : string) : option Field :=
  snd <$> List.find (fun kv => String.eqb (fst kv) name) (Data e).

End logrus.

(** ** time *)

Module time.

(** A [time.Time]: the wall clock reading in nanoseconds since the Unix
    epoch, and the monotonic clock reading in nanoseconds. *)
Record Time := mkTime { wall : Z; mono : Z }.

(** [t.UnixNano()], an [int64]. *)
Definition UnixNano (t : Time) : Z := wall t.

(** [t.Sub(u)] on the monotonic readings, a [Duration] in nanoseconds
    that saturates at the ends of [int64]. *)
Definition Sub (t u : Time) : Z :=
  Z.max strconv.minInt64 (Z.min strconv.maxInt64 (mono t - mono u)).

(** [d.Nanoseconds()]. *)
Definition Nanoseconds (d : Z) : Z := d.

End time.

(** ** gopkg.in/go-playground/webhooks.v5/github *)

Module webhook.

(** [type Event string]; [WatchEvent Event = "watch"]. *)
Definition Event := string.
Definition WatchEvent : Event := "watch".

Definition ErrEventNotSpecifiedToParse := WebhookError EventNotSpecifiedToParse.
Definition ErrInvalidHTTPMethod := WebhookError InvalidHTTPMethod.
Definition ErrMissingGithubEventHeader := WebhookError MissingGithubEventHeader.
Definition ErrMissingHubSignatureHeader := WebhookError MissingHubSignatureHeader.
Definition ErrEventNotFound := WebhookError EventNotFound.
Definition ErrParsingPayload := WebhookError ParsingPayload.
Definition ErrHMACVerificationFailed := WebhookError HMACVerificationFailed.

(** The fields of [WatchPayload] the program reads. *)
Record RepositoryT := mkRepository { Name : string; StargazersCount : Z }.
Record SenderT := mkSender { HTMLURL : string }.
Record WatchPayload := mkWatchPayload { Repository : RepositoryT; Sender : SenderT }.

(** The [interface{}] returned by [Parse]: [nil], a [WatchPayload], or
    the payload struct of another event. *)
Inductive Payload :=
  | nilPayload
  | isWatchPayload (pl : WatchPayload)
  | otherPayload (e : Event).

(** What the package computes outside this development: whether a MAC in
    hexadecimal is the HMAC-SHA1 of the body under the secret (the
    [hmac.Equal] of [Parse], on [expectedMAC]), and [json.Unmarshal] of
    the body into a [WatchPayload]. *)
Record Codec := mkCodec {
  mac_ok : string -> string -> string -> bool;
  Unmarshal : string -> WatchPayload * option error
}.

(** How a call of [hook.Parse] ends: it returns its two results, or it
    panics. *)
Inductive Parsed :=
  | Panics
  | Returns (payload : Payload) (err : option error).

(** [hook.Parse(r, events...)] for a hook made with [Options.Secret]:
    the checks in the order of the package: method, event header, event
    among [events], body, then (under a non-empty secret) the signature
    header, its slice [signature[5:]] past the ["sha1="] prefix and the
    comparison of that slice with the expected MAC, then the decoding by
    event.  The package takes the slice without looking at the length of
    the header value, so a value of one to four bytes makes the call
    panic. *)
Definition Parse (c : Codec) (secret : string) (r : http.Request)
    (events : list Event) : Parsed :=
  match events with
  | [] => Returns nilPayload (Some ErrEventNotSpecifiedToParse)
  | _ =>
    if negb (String.eqb (http.Method r) "POST")
    then Returns nilPayload (Some ErrInvalidHTTPMethod)
    else
      let event := http.Get (http.Header r) "X-GitHub-Event" in
      if String.eqb event "" then Returns nilPayload (Some ErrMissingGithubEventHeader)
      else if negb (bool_decide (event ∈ events))
      then Returns nilPayload (Some ErrEventNotFound)
      else if String.eqb (http.Body r) ""
      then Returns nilPayload (Some ErrParsingPayload)
      else
        let decoded :=
          if String.eqb event WatchEvent
          then let (pl, err) := Unmarshal c (http.Body r) in Returns (isWatchPayload pl) err
          else Returns (otherPayload event) None in
        if String.eqb secret "" then decoded
        else
          let signature := http.Get (http.Header r) "X-Hub-Signature" in
          if String.eqb signature ""
          then Returns nilPayload (Some ErrMissingHubSignatureHeader)
          else
            match slice_from signature 5 with
            | None => Panics
            | Some mac =>
                if mac_ok c secret (http.Body r) mac then decoded
                else Returns nilPayload (Some ErrHMACVerificationFailed)
            end
  end.

(** The two results the caller goes on with after a call that returned.
    A call that panicked has no results and its caller no next step: the
    handler monad below has no panic, and there the call counts as the
    refusal of the signature; what the connection sees of a panic is told
    by [conn_serve]. *)
Definition results (p : Parsed) : Payload * option error :=
  match p with
  | Returns payload err => (payload, err)
  | Panics => (nilPayload, Some ErrHMACVerificationFailed)
  end.

(** The signature header value passes the check of [Parse]: it has the
    five bytes of a prefix, and what follows them is the expected MAC. *)
Definition signature_ok (c : Codec) (secret body signature : string) : bool :=
  match slice_from signature 5 with
  | Some mac => mac_ok c secret body mac
  | None => false
  end.

(** The request carries a signature that the hook accepts. *)
Definition valid_signature (c : Codec) (secret : string) (r : http.Request) : bool :=
  let signature := http.Get (http.Header r) "X-Hub-Signature" in
  negb (String.eqb signature "")
  && signature_ok c secret (http.Body r) signature.

End webhook.

(** ** github.com/go-telegram-bot-api/telegram-bot-api *)

Module tgbotapi.

Record MessageConfig := mkMessageConfig {
  ChatID : Z;
  ReplyToMessageID : Z;
  Text : string;
  ParseMode : string;
  DisableWebPagePreview : bool
}.

(** [tgbotapi.NewMessage(chatID, text)]. *)
Definition NewMessage (chatID : Z) (text : string) : MessageConfig :=
  mkMessageConfig chatID 0 text "" false.

(** [msg.ParseMode = mode]. *)
Definition set_ParseMode (mode : string) (msg : MessageConfig) : MessageConfig :=
  mkMessageConfig (ChatID msg) (ReplyToMessageID msg) (Text msg) mode
                  (DisableWebPagePreview msg).

End tgbotapi.

(** ** The world a request runs in *)

(** What the program asks of its surroundings: the webhook codec, the
    error (if any) of [bot.Send] on a message, the result of
    [os.Hostname], and the output of [json.Encoder.Encode] on the version
    map. *)
Record Environ := mkEnviron {
  codec : webhook.Codec;
  Send_err : tgbotapi.MessageConfig -> option error;
  Hostname : string + error;
  Encode_version : string -> string
}.

(** The state a handler acts on: the response being built, the entries
    logged and the messages handed to [bot.Send] so far (oldest first),
    and the clock: [clock n] is what the [n]-th call of [time.Now]
    returns, [tick] counts the calls made. *)
Record State := mkState {
  st_w : http.response;
  st_log : list logrus.Entry;
  st_sent : list tgbotapi.MessageConfig;
  st_clock : nat -> time.Time;
  st_tick : nat
}.

(** Effectful code is a state transformer with a result. *)
Definition M (A : Type) : Type := State -> A * State.

Definition ret {A} (a : A) : M A := fun s => (a, s).
Definition bind {A B} (c : M A) (k : A -> M B) : M B :=
  fun s => let (a, s') := c s in k a s'.

Declare Scope m_scope.
Delimit Scope m_scope with M.
Notation "x <- c ;; k" := (bind c (fun x => k))
  (at level 100, c at next level, right associativity) : m_scope.
Notation "c ;; k" := (bind c (fun _ => k))
  (at level 100, right associativity) : m_scope.
Local Open Scope m_scope.

Definition exec {A} (c : M A) (s : State) : State := snd (c s).

(** A handler serves a request on the response held in the state. *)
Definition Handler := http.Request -> M unit.

Definition on_response (f : http.response -> http.response) : M unit :=
  fun s => (tt, mkState (f (st_w s)) (st_log s) (st_sent s) (st_clock s) (st_tick s)).

(** [fmt.Fprint(w, text)]; its results are dropped by every caller. *)
Definition Fprint (text : string) : M unit := on_response (http.Write text).

(** A logging call appends its entry. *)
Definition emit (e : logrus.Entry) : M unit :=
  fun s => (tt, mkState (st_w s) (st_log s ++ [e]) (st_sent s) (st_clock s) (st_tick s)).

(** [time.Now()]. *)
Definition Now : M time.Time :=
  fun s => (st_clock s (st_tick s),
            mkState (st_w s) (st_log s) (st_sent s) (st_clock s) (S (st_tick s))).

(** [time.Since(start)] is [time.Now().Sub(start)]. *)
Definition Since (start : time.Time) : M Z :=
  now <- Now ;; ret (time.Sub now start).

(** ** github.com/gorilla/mux *)

Module mux.

(** A route registered by [router.HandleFunc(path, f).Methods(m)]. *)
Record Route := mkRoute {
  route_path : string;
  route_method : string;
  route_handler : Handler
}.

(** [http.NotFound]. *)
Definition NotFound : Handler := fun _ =>
  on_response (http.SetHeader "Content-Type" "text/plain; charset=utf-8") ;;
  on_response (http.SetHeader "X-Content-Type-Options" "nosniff") ;;
  on_response (http.WriteHeader http.StatusNotFound) ;;
  Fprint ("404 page not found" +:+ nl).

Definition methodNotAllowed : Handler := fun _ =>
  on_response (http.WriteHeader http.StatusMethodNotAllowed).

(** [Router.Match]: the first route whose path and method both match
    serves the request; [mismatch] records that some route matched the
    path but not the method. *)
Fixpoint dispatch (routes : list Route) (mismatch : bool) : Handler := fun r =>
  match routes with
  | [] => if mismatch then methodNotAllowed r else NotFound r
  | rt :: rest =>
      if String.eqb (http.URL_Path r) (route_path rt) then
        if String.eqb (http.Method r) (route_method rt) then route_handler rt r
        else dispatch rest true r
      else dispatch rest mismatch r
  end.

(** [Router.ServeHTTP], for a request path that is already clean, as the
    three registered paths are.  A path that is not (a doubled slash, a
    [.] or [..] element) is answered by the router with a redirect to
    its clean form before any route is tried; that answer is not part
    of this definition. *)
Definition ServeHTTP (routes : list Route) : Handler := dispatch routes false.

End mux.

(** ** main.go *)

Section Server.

Context (env : Environ).

(** The values [main] closes its handlers over: [secret],
    [telegramChatID] and the package variable [Version]. *)
Variables (secret : string) (telegramChatID : Z) (Version : string).

(** [bot.Send(msg)]: the message goes out, the error (if any) comes back. *)
Definition bot_Send (msg : tgbotapi.MessageConfig) : M (option error) :=
  fun s => (Send_err env msg,
            mkState (st_w s) (st_log s) (st_sent s ++ [msg]) (st_clock s) (st_tick s)).

(** [type key int] and [requestIDKey key = 0]. *)
Definition requestIDKey : http.ContextKey := http.key 0.

(** The text built by [fmt.Sprintf] in the webhook handler. *)
Definition rawMsgS (watchRequest : webhook.WatchPayload) : string :=
  "New Github star for *" +:+ webhook.Name (webhook.Repository watchRequest)
  +:+ "* repo!. " +:+ nl
  +:+ "The *" +:+ webhook.Name (webhook.Repository watchRequest)
  +:+ "* repo now has *"
  +:+ strconv.FormatInt (webhook.StargazersCount (webhook.Repository watchRequest))
  +:+ "* stars! 🎉. " +:+ nl
  +:+ "Your new fan is " +:+ webhook.HTMLURL (webhook.Sender watchRequest).

(** The handler of [/version]. *)
Definition versionHandler : Handler := fun r =>
  Fprint (Encode_version env Version).

(** The handler of [/health]. *)
Definition healthHandler : Handler := fun r => Fprint "OK".

(** The handler of [/webhook]. *)
Definition webhookHandler : Handler := fun r =>
  let (payload, err) :=
    webhook.results (webhook.Parse (codec env) secret r [webhook.WatchEvent]) in
  match err with
  | Some e =>
      if decide (e = webhook.ErrEventNotFound) then
        emit (logrus.mkEntry logrus.ErrorLevel
                [("event", logrus.FString (http.Get (http.Header r) "X-GitHub-Event"))]
                None [logrus.AError e])
      else ret tt
  | None => ret tt
  end ;;
  match payload with
  | webhook.isWatchPayload watchRequest =>
      emit (logrus.mkEntry logrus.InfoLevel [] None [logrus.AString "Is Watch request"]) ;;
      let msg := tgbotapi.NewMessage telegramChatID (rawMsgS watchRequest) in
      let msg := tgbotapi.set_ParseMode "markdown" msg in
      errBot <- bot_Send msg ;;
      match errBot with
      | Some e =>
          emit (logrus.mkEntry logrus.InfoLevel [] (Some "Message can't send, %v")
                  [logrus.AError e])
      | None => ret tt
      end ;;
      Fprint "OK"
  | _ => ret tt
  end ;;
  Fprint "Event received. Have a nice day".

(** The routes of [router], in the order [main] registers them. *)
Definition router : Handler :=
  mux.ServeHTTP
    [ mux.mkRoute "/version" "GET" versionHandler;
      mux.mkRoute "/health" "GET" healthHandler;
      mux.mkRoute "/webhook" "POST" webhookHandler ].

(** [latency]: the elapsed nanoseconds in whole milliseconds. *)
Definition latency_of (stop : Z) : Z :=
  math.int_of_float64
    (math.Ceil (PrimFloat.div (math.float64_of_int64 (time.Nanoseconds stop))
                              1000000%float)).

(** The client address picked by [logging]. *)
Definition clientIP (r : http.Request) : string :=
  let IPAddress := http.Get (http.Header r) "X-Real-Ip" in
  let IPAddress :=
    if String.eqb IPAddress "" then http.Get (http.Header r) "X-Forwarded-For"
    else IPAddress in
  let IPAddress :=
    if String.eqb IPAddress "" then http.RemoteAddr r else IPAddress in
  IPAddress.

(** [logging()(next)]. *)
Definition logging (next : Handler) : Handler := fun r =>
  let requestID :=
    match http.Value (http.ctx r) requestIDKey with
    | Some (http.anyString s) => s
    | _ => "unknown"
    end in
  let hostname :=
    match Hostname env with
    | inl h => h
    | inr _ => "unknow"
    end in
  start <- Now ;;
  next r ;;
  stop <- Since start ;;
  let latency := latency_of stop in
  let IPAddress := clientIP r in
  emit (logrus.mkEntry logrus.InfoLevel
          [ ("hostname", logrus.FString hostname);
            ("requestID", logrus.FString requestID);
            ("latency", logrus.FInt latency);
            ("clientIP", logrus.FString IPAddress);
            ("method", logrus.FString (http.Method r));
            ("path", logrus.FString (http.URL_Path r));
            ("header", logrus.FHeader (http.Header r));
            ("referer", logrus.FString (http.Referer r));
            ("userAgent", logrus.FString (http.UserAgent r)) ]
          None [logrus.AString "Request"]).

(** [tracing()(next)]. *)
Definition tracing (next : Handler) : Handler := fun r =>
  let requestID := http.Get (http.Header r) "X-Request-Id" in
  requestID <-
    (if String.eqb requestID "" then
       now <- Now ;; ret (strconv.FormatInt (time.UnixNano now))
     else ret requestID) ;;
  let ctx := http.WithValue (http.ctx r) requestIDKey (http.anyString requestID) in
  on_response (http.SetHeader "X-Request-Id" requestID) ;;
  next (http.WithContext r ctx).

(** [srv.Handler]. *)
Definition srv_Handler : Handler := tracing (logging router).

(** The server runs the handler on a fresh response and finishes it: the
    run of a request whose handler returns. *)
Definition serve (h : Handler) (r : http.Request) (s : State) : State :=
  let s0 := mkState http.newResponse (st_log s) (st_sent s) (st_clock s) (st_tick s) in
  exec (h r ;; on_response http.finishRequest) s0.

(** The one panic a request can set off under [srv.Handler]: the router
    hands the request to the handler of [/webhook] and [hook.Parse]
    panics there. *)
Definition panics (r : http.Request) : bool :=
  String.eqb (http.URL_Path r) "/webhook" && String.eqb (http.Method r) "POST"
  && match webhook.Parse (codec env) secret r [webhook.WatchEvent] with
     | webhook.Panics => true
     | webhook.Returns _ _ => false
     end.

(** What a connection gets from the server: the response of a handler
    that returned, or nothing.  The program has no [recover]; a panic
    unwinds the handler, [logging] (which has read the clock and has not
    logged yet) and [tracing] (which has set the header of a response
    that is never sent), the server recovers it, reports it on its own
    logger and closes the connection. *)
Inductive Served :=
  | Answered (s : State)
  | Aborted (s : State).

(** A request on a connection, under [srv.Handler]. *)
Definition conn_serve (r : http.Request) (s : State) : Served :=
  if panics r then
    let s0 := mkState http.newResponse (st_log s) (st_sent s) (st_clock s) (st_tick s) in
    Aborted (exec (tracing (fun _ => _ <- Now ;; ret tt) r) s0)
  else Answered (serve srv_Handler r s).

End Server.

(** ** Process start-up: [getenv] and [main] *)

(** What [main] meets when the process starts: the environment variables
    ([os.Getenv] gives [""] for an unset one), the values of the [-port]
    and [-listen] flags when given on the command line, the error of
    [tgbotapi.NewBotAPI] on a token, and the error with which
    [srv.ListenAndServe] returns at once on an address ([None]: the server
    is up and serving). *)
Record Process := mkProcess {
  environ : gmap string string;
  flag_port : option string;
  flag_listen : option string;
  NewBotAPI_err : string -> option error;
  ListenAndServe_err : string -> option error
}.

(** [os.Getenv]. *)
Definition os_Getenv (p : Process) (k : string) : string :=
  default "" (environ p !! k).

(** [getenv(key, fallback)]. *)
Definition getenv (p : Process) (k fallback : string) : string :=
  let value := os_Getenv p k in
  if (Z.of_nat (String.length value) =? 0) then fallback else value.

(** The flag variables [port] and [listen] after [flag.Parse]. *)
Definition port (p : Process) : string :=
  default (getenv p "PORT" (strconv.Itoa 8080)) (flag_port p).
Definition listen (p : Process) : string :=
  default (getenv p "LISTEN" "0.0.0.0") (flag_listen p).

(** How [main] ends: the process exits ([log.Fatal] and [log.Fatalf] call
    [os.Exit(1)]), it panics ([log.Panicf]), or the server is serving
    [handler] on [addr]. *)
Inductive Outcome :=
  | Exited (code : Z)
  | Panicked
  | Serving (addr : string) (handler : Handler).

Definition plain (l : logrus.Level) (text : string) : logrus.Entry :=
  logrus.mkEntry l [] None [logrus.AString text].

(** [main]: the entries it logs, in order, and how it ends.  ([init] ran
    before: it parsed the flags, and left the process at once, with code
    0, on [-help] and [-v]; [main] is reached otherwise.) *)
Definition main (env : Environ) (Version : string) (p : Process)
    : list logrus.Entry * Outcome :=
  let log0 :=
    [logrus.mkEntry logrus.InfoLevel [] (Some "Init Star %s") [logrus.AString Version]] in
  let secret := getenv p "GITHUB_SECRET" "" in
  if String.eqb secret "" then
    (log0 ++ [plain logrus.FatalLevel "Github webhook secret not set"], Exited 1)
  else
    let telegramToken := getenv p "TELEGRAM_TOKEN" "" in
    let log1 :=
      if String.eqb telegramToken ""
      then log0 ++ [plain logrus.ErrorLevel "Telegram token not set"] else log0 in
    let telegramChat := getenv p "TELEGRAM_CHAT" "" in
    let log2 :=
      if String.eqb telegramChat ""
      then log1 ++ [plain logrus.ErrorLevel "Telegram Chat ID not set"] else log1 in
    let telegramChatID := fst (strconv.ParseInt telegramChat) in
    match NewBotAPI_err p telegramToken with
    | Some err =>
        (log2 ++ [logrus.mkEntry logrus.PanicLevel [] (Some "Bot can't connect , %v")
                     [logrus.AError err]],
         Panicked)
    | None =>
        let addr := listen p +:+ ":" +:+ port p in
        let log3 :=
          log2 ++ [logrus.mkEntry logrus.InfoLevel [] None
                      [logrus.AString "Serve at: "; logrus.AString addr]] in
        match ListenAndServe_err p addr with
        | Some errServe =>
            (log3 ++ [logrus.mkEntry logrus.FatalLevel [] (Some "Server err %s")
                         [logrus.AError errServe]],
             Exited 1)
        | None =>
            (log3, Serving addr (srv_Handler env secret telegramChatID Version))
        end
    end.

(** ** Sample runs *)

Module Samples.

Definition star_payload : webhook.WatchPayload :=
  webhook.mkWatchPayload (webhook.mkRepository "star" 42)
                         (webhook.mkSender "https://github.com/alice").

(** A codec for which the expected MAC is ["good"], so that the signature
    ["sha1=good"] passes, and which decodes every body to
    [star_payload]. *)
Definition codec0 : webhook.Codec :=
  webhook.mkCodec (fun _ _ mac => String.eqb mac "good")
                  (fun _ => (star_payload, None)).

Definition env0 : Environ :=
  mkEnviron codec0 (fun _ => None) (inl "host") (fun v => v).

(** A clock that ticks every half millisecond. *)
Definition clock0 (n : nat) : time.Time :=
  time.mkTime (1600000000000000000 + 500000 * Z.of_nat n) (500000 * Z.of_nat n).

Definition s0 : State := mkState http.newResponse [] [] clock0 0.

Definition hook_request (event signature : string) : http.Request :=
  http.mkRequest "POST" "/webhook"
    (<["X-Github-Event" := [event]]> (<["X-Hub-Signature" := [signature]]> ∅))
    "{}" "10.0.0.1:4242" [].

Definition run (r : http.Request) : State :=
  serve (srv_Handler env0 "s3cret" 7 "dev") r s0.

End Samples.

(** * Definitions for the statements *)

(** The text written after the event switch. *)
Definition acknowledgment : string := "Event received. Have a nice day".

(** The entries logged, and the messages handed to [bot.Send], while the
    state went from [s] to [s']. *)
Definition logged (s s' : State) : list logrus.Entry :=
  drop (length (st_log s)) (st_log s').
Definition outbound (s s' : State) : list tgbotapi.MessageConfig :=
  drop (length (st_sent s)) (st_sent s').

(** The error entry of the webhook handler. *)
Definition event_entry (event : string) : logrus.Entry :=
  logrus.mkEntry logrus.ErrorLevel [("event", logrus.FString event)] None
                 [logrus.AError webhook.ErrEventNotFound].

(** The message the webhook handler builds for a decoded payload. *)
Definition hook_message (telegramChatID : Z) (pl : webhook.WatchPayload)
    : tgbotapi.MessageConfig :=
  tgbotapi.set_ParseMode "markdown" (tgbotapi.NewMessage telegramChatID (rawMsgS pl)).

(** The raw X-GitHub-Event header value of a request. *)
Definition event_of (r : http.Request) : string :=
  http.Get (http.Header r) "X-GitHub-Event".

(** The error entries of the webhook handler, by the error of [Parse]. *)
Definition hook_errors (r : http.Request) (err : option error) : list logrus.Entry :=
  match err with
  | Some e =>
      if decide (e = webhook.ErrEventNotFound)
      then [event_entry (http.Get (http.Header r) "X-GitHub-Event")] else []
  | None => []
  end.

(** The entries of the [WatchPayload] case for a message. *)
Definition hook_watch_entries (env : Environ) (msg : tgbotapi.MessageConfig)
    : list logrus.Entry :=
  logrus.mkEntry logrus.InfoLevel [] None [logrus.AString "Is Watch request"]
  :: match Send_err env msg with
     | Some e => [logrus.mkEntry logrus.InfoLevel [] (Some "Message can't send, %v")
                    [logrus.AError e]]
     | None => []
     end.

(** The error a [watch] request without a valid signature gets. *)
Definition watch_failure (r : http.Request) : error :=
  if String.eqb (http.Body r) "" then webhook.ErrParsingPayload
  else if String.eqb (http.Get (http.Header r) "X-Hub-Signature") ""
  then webhook.ErrMissingHubSignatureHeader
  else webhook.ErrHMACVerificationFailed.

(** The correlation id [tracing] settles on: the supplied header value, or
    the wall clock reading in decimal when none is supplied. *)
Definition request_id (r : http.Request) (s : State) : string :=
  let supplied := http.Get (http.Header r) "X-Request-Id" in
  if String.eqb supplied "" then strconv.FormatInt (time.UnixNano (st_clock s (st_tick s)))
  else supplied.

(** The request [tracing] hands to the next handler. *)
Definition traced (r : http.Request) (rid : string) : http.Request :=
  http.WithContext r (http.WithValue (http.ctx r) requestIDKey (http.anyString rid)).

(** The state [tracing] hands to the next handler. *)
Definition after_tracing (r : http.Request) (s : State) : State :=
  mkState (http.SetHeader "X-Request-Id" (request_id r s) (st_w s))
          (st_log s) (st_sent s) (st_clock s)
          (if String.eqb (http.Get (http.Header r) "X-Request-Id") ""
           then S (st_tick s) else st_tick s).

(** The state in which [logging] starts the next handler: the clock was
    read once. *)
Definition started (s : State) : State :=
  mkState (st_w s) (st_log s) (st_sent s) (st_clock s) (S (st_tick s)).

(** The nanoseconds [logging] measures around a downstream run that took
    the state from [s] to [s2]. *)
Definition elapsed (s s2 : State) : Z :=
  time.Sub (st_clock s2 (st_tick s2)) (st_clock s (st_tick s)).

(** The correlation id [logging] finds in the context of a request. *)
Definition context_id (r : http.Request) : string :=
  match http.Value (http.ctx r) requestIDKey with
  | Some (http.anyString s) => s
  | _ => "unknown"
  end.

(** The entry [logging] emits. *)
Definition access_entry (env : Environ) (r : http.Request) (stop : Z) : logrus.Entry :=
  logrus.mkEntry logrus.InfoLevel
    [ ("hostname", logrus.FString match Hostname env with inl h => h | inr _ => "unknow" end);
      ("requestID", logrus.FString (context_id r));
      ("latency", logrus.FInt (latency_of stop));
      ("clientIP", logrus.FString (clientIP r));
      ("method", logrus.FString (http.Method r));
      ("path", logrus.FString (http.URL_Path r));
      ("header", logrus.FHeader (http.Header r));
      ("referer", logrus.FString (http.Referer r));
      ("userAgent", logrus.FString (http.UserAgent r)) ]
    None [logrus.AString "Request"].

(** The nanoseconds [logging] measures around a handler that does not
    read the clock. *)
Definition idle_elapsed (r : http.Request) (s : State) : Z :=
  let t := if String.eqb (http.Get (http.Header r) "X-Request-Id") ""
           then S (st_tick s) else st_tick s in
  time.Sub (st_clock s (S t)) (st_clock s t).


(** The last entry logged. *)
Definition last_entry (s : State) : option logrus.Entry := last (st_log s).

(** The entry of the fatal exit on a missing secret. *)
Definition secret_fatal : logrus.Entry :=
  plain logrus.FatalLevel "Github webhook secret not set".

Definition telegramChatID_of (p : Process) : Z :=
  fst (strconv.ParseInt (getenv p "TELEGRAM_CHAT" "")).

Definition Addr (p : Process) : string := listen p +:+ ":" +:+ port p.

(** How [main] ends once it is past the secret check: by the bot
    connection and by [ListenAndServe]. *)
Definition connect_and_serve (env : Environ) (Version : string) (p : Process) : Outcome :=
  match NewBotAPI_err p (getenv p "TELEGRAM_TOKEN" "") with
  | Some _ => Panicked
  | None =>
      match ListenAndServe_err p (Addr p) with
      | Some _ => Exited 1
      | None => Serving (Addr p)
                  (srv_Handler env (getenv p "GITHUB_SECRET" "") (telegramChatID_of p) Version)
      end
  end.

(** ** Checking the latency arithmetic by enumeration *)

Module LatencyCheck.

(** [p] holds on the [2^k] integers from [lo] on; [w] is [2^k]. *)
Fixpoint all_from (p : int -> bool) (k : nat) (w lo : int) : bool :=
  match k with
  | O => p lo
  | S k' =>
      let h := Uint63.lsr w 1%uint63 in
      all_from p k' h lo && all_from p k' h (Uint63.add lo h)
  end.

(** The latency computed on a primitive integer [i]. *)
Definition lat (i : int) : float :=
  math.Ceil (PrimFloat.div (PrimFloat.of_uint63 i) 1000000%float).

(** [lat i] is the non-negative integer [ceil (i / 10^6)]. *)
Definition is_ceiling (i : int) : bool :=
  negb (PrimFloat.ltb (lat i) 0%float)
  && Uint63.eqb (math.trunc_mag (lat i))
                (Uint63.div (Uint63.add i 999999%uint63) 1000000%uint63).

End LatencyCheck.

(** ** More sample inputs *)

Module Runs.

Import Samples.

(** A process with the secret and the token set, and no chat id; the
    Telegram API refuses the empty token only. *)
Definition api (token : string) : option error :=
  if String.eqb token "" then Some (OtherError "Not Found") else None.

Definition proc_no_chat : Process :=
  mkProcess (<["GITHUB_SECRET" := "s3cret"]> (<["TELEGRAM_TOKEN" := "123:abc"]> ∅))
            None None api (fun _ => None).

(** The same with the token missing instead. *)
Definition proc_no_token : Process :=
  mkProcess (<["GITHUB_SECRET" := "s3cret"]> (<["TELEGRAM_CHAT" := "-1001"]> ∅))
            None None api (fun _ => None).

(** No secret at all. *)
Definition proc_no_secret : Process := mkProcess ∅ None None api (fun _ => None).

(** A clock that ticks every millisecond and a half. *)
Definition clock15 (n : nat) : time.Time :=
  time.mkTime (1600000000000000000 + 1500000 * Z.of_nat n) (1500000 * Z.of_nat n).

Definition s15 : State := mkState http.newResponse [] [] clock15 0.

Definition health_request : http.Request :=
  http.mkRequest "GET" "/health"
    (<["X-Request-Id" := ["abc-123"]]> (<["X-Forwarded-For" := ["203.0.113.9"]]> ∅))
    "" "10.0.0.1:4242" [].

Definition watch_good : http.Request := hook_request "watch" "sha1=good".
Definition watch_bad : http.Request := hook_request "watch" "sha1=bad".
Definition watch_short : http.Request := hook_request "watch" "abc".
Definition push_good : http.Request := hook_request "push" "sha1=good".

End Runs.

(** ** Decimal digits, and the command line *)

(** The number a decimal digit sequence denotes, most significant digit
    first, on top of the digits [acc] read before. *)
Fixpoint uint_value (d : Decimal.uint) (acc : Z) : Z :=
  match d with
  | Decimal.Nil => acc
  | Decimal.D0 d => uint_value d (acc * 10)
  | Decimal.D1 d => uint_value d (acc * 10 + 1)
  | Decimal.D2 d => uint_value d (acc * 10 + 2)
  | Decimal.D3 d => uint_value d (acc * 10 + 3)
  | Decimal.D4 d => uint_value d (acc * 10 + 4)
  | Decimal.D5 d => uint_value d (acc * 10 + 5)
  | Decimal.D6 d => uint_value d (acc * 10 + 6)
  | Decimal.D7 d => uint_value d (acc * 10 + 7)
  | Decimal.D8 d => uint_value d (acc * 10 + 8)
  | Decimal.D9 d => uint_value d (acc * 10 + 9)
  end.


(** ** [init]: the command line *)

(** What [flag.Parse] made of the arguments: whether it refused one (a
    flag that is not defined, a flag without its value, a value that does
    not parse), in which case it reports the error and calls
    [flag.Usage]; whether help was asked for ([-help], which sets [*help],
    or [-h], on which the package calls [flag.Usage] itself); and the
    value of [*printVersion].  (The values of [-port] and [-listen] are
    in [Process].) *)
Record CommandLine := mkCommandLine {
  refused : bool;
  help : bool;
  printVersion : bool
}.

(** What the process wrote before it left. *)
Inductive Printed :=
  | ParseError
  | Defaults
  | VersionText (v : string).

(** How [init] ends: the process is left with a code, or [main] is next. *)
Inductive InitResult :=
  | Leave (code : Z)
  | Enter.

(** [init]: what it prints, in order, and how it ends.  [flag.Usage] is
    replaced by a function that prints the defaults and exits with code
    0, so a refused argument ends there too. *)
Definition init (Version : string) (cl : CommandLine) : list Printed * InitResult :=
  if refused cl then ([ParseError; Defaults], Leave 0)
  else if help cl then ([Defaults], Leave 0)
  else if printVersion cl then ([VersionText Version], Leave 0)
  else ([], Enter).

(** The process from its start: [init], then [main]. *)
Definition process (env : Environ) (Version : string) (cl : CommandLine) (p : Process)
    : list Printed * (list logrus.Entry * Outcome) :=
  match init Version cl with
  | (out, Leave code) => (out, ([], Exited code))
  | (out, Enter) => (out, main env Version p)
  end.


(** ** Sample inputs for the other routes and for start-up *)

Module MoreRuns.

Definition version_request : http.Request :=
  http.mkRequest "GET" "/version" ∅ "" "10.0.0.1:4242" [].

Definition get_webhook : http.Request :=
  http.mkRequest "GET" "/webhook" ∅ "" "10.0.0.1:4242" [].

(** Surroundings in which Telegram refuses every message and the host
    name cannot be read. *)
Definition env_send_fails : Environ :=
  mkEnviron Samples.codec0 (fun _ => Some (OtherError "Forbidden"))
            (inr (OtherError "no host name")) (fun v => v).

(** A fully configured process, and the same on a port that is taken. *)
Definition proc_full : Process :=
  mkProcess (<["GITHUB_SECRET" := "s3cret"]>
               (<["TELEGRAM_TOKEN" := "123:abc"]> (<["TELEGRAM_CHAT" := "-1001"]> ∅)))
            None None Runs.api (fun _ => None).

Definition proc_port_taken : Process :=
  mkProcess (<["GITHUB_SECRET" := "s3cret"]> (<["TELEGRAM_TOKEN" := "123:abc"]> ∅))
            (Some "9000") None Runs.api
            (fun _ => Some (OtherError "address already in use")).


End MoreRuns.

(** * Properties *)

(** ** Sample runs of the server *)

Example sample_watch_body :
  http.body (st_w (Samples.run (Samples.hook_request "watch" "sha1=good")))
  = "OKEvent received. Have a nice day".
Proof. vm_compute. reflexivity. Qed.

Example sample_watch_text :
  tgbotapi.Text <$> st_sent (Samples.run (Samples.hook_request "watch" "sha1=good"))
  = ["New Github star for *star* repo!. " +:+ nl
     +:+ "The *star* repo now has *42* stars! 🎉. " +:+ nl
     +:+ "Your new fan is https://github.com/alice"].
Proof. vm_compute. reflexivity. Qed.

(** ** Headers, strings and numbers *)



Lemma eqb_empty_false (s : string) : s ≠ "" -> String.eqb s "" = false.
Proof. intros H. by apply String.eqb_neq. Qed.

Lemma append_cons (c : ascii) (s t : string) :
  String c s +:+ t = String c (s +:+ t).
Proof. reflexivity. Qed.

Lemma append_empty_l (s : string) : "" +:+ s = s.
Proof. reflexivity. Qed.

Lemma append_empty_r (s : string) : s +:+ "" = s.
Proof. induction s as [|c s IH]; [done | by rewrite append_cons, IH]. Qed.

Lemma HasPrefix_append (p s : string) : strings.HasPrefix (p +:+ s) p = true.
Proof.
  induction p as [|c p IH]; [done |].
  rewrite append_cons. simpl. by rewrite Ascii.eqb_refl.
Qed.

Lemma HasPrefix_append_r (a b sub : string) :
  strings.HasPrefix a sub = true -> strings.HasPrefix (a +:+ b) sub = true.
Proof.
  revert a. induction sub as [|e sub IH]; intros a H; [done |].
  destruct a as [|c a]; [done |].
  rewrite append_cons. simpl in *.
  destruct (Ascii.eqb e c); [by apply IH | done].
Qed.

Lemma Contains_append_l (a b sub : string) :
  strings.Contains b sub = true -> strings.Contains (a +:+ b) sub = true.
Proof.
  intros H. induction a as [|c a IH]; [done |].
  rewrite append_cons. simpl. rewrite IH. apply orb_true_r.
Qed.

Lemma Contains_append_r (a b sub : string) :
  strings.Contains a sub = true -> strings.Contains (a +:+ b) sub = true.
Proof.
  induction a as [|c a IH]; intros H.
  - destruct sub; [by destruct b | simpl in H; discriminate].
  - cbn [strings.Contains] in H. apply orb_true_iff in H. destruct H as [H | H].
    + apply (HasPrefix_append_r _ b) in H.
      rewrite append_cons in *. cbn [strings.Contains]. by rewrite H.
    + rewrite append_cons. cbn [strings.Contains]. rewrite (IH H).
      apply orb_true_r.
Qed.

Lemma Contains_self (s : string) : strings.Contains s s = true.
Proof.
  pose proof (HasPrefix_append s "") as H. rewrite append_empty_r in H.
  destruct s as [|c s]; [done |]. cbn [strings.Contains]. by rewrite H.
Qed.


Example FormatInt_samples :
  strconv.FormatInt 0 = "0" /\ strconv.FormatInt 42 = "42"
  /\ strconv.FormatInt (-7) = "-7"
  /\ strconv.FormatInt 1600000000000000000 = "1600000000000000000".
Proof. by vm_compute. Qed.

Example ParseInt_samples :
  strconv.ParseInt "" = (0, Some strconv.ErrSyntax)
  /\ strconv.ParseInt "-1001234" = (-1001234, None)
  /\ strconv.ParseInt "+12" = (12, None)
  /\ strconv.ParseInt "12a" = (0, Some strconv.ErrSyntax)
  /\ strconv.ParseInt "9223372036854775808" = (9223372036854775807, Some strconv.ErrRange)
  /\ strconv.ParseInt "-9223372036854775808" = (-9223372036854775808, None).
Proof. by vm_compute. Qed.

Example canonical_keys :
  http.CanonicalMIMEHeaderKey "X-GitHub-Event" = "X-Github-Event"
  /\ http.CanonicalMIMEHeaderKey "x-request-id" = "X-Request-Id"
  /\ http.CanonicalMIMEHeaderKey "X-Real-Ip" = "X-Real-Ip"
  /\ http.CanonicalMIMEHeaderKey "bad key" = "bad key".
Proof. by vm_compute. Qed.

(** ** The latency arithmetic *)

Lemma all_from_sound (p : int -> bool) (k : nat) :
  forall w lo,
    Uint63.to_Z w = 2 ^ Z.of_nat k ->
    Uint63.to_Z lo + 2 ^ Z.of_nat k <= Uint63.wB ->
    LatencyCheck.all_from p k w lo = true ->
    forall i, Uint63.to_Z lo <= Uint63.to_Z i < Uint63.to_Z lo + 2 ^ Z.of_nat k ->
              p i = true.
Proof.
  induction k as [|k IH]; intros w lo Hw Hlo H i Hi.
  - simpl in *. assert (i = lo) as -> by (apply Uint63.to_Z_inj; lia). done.
  - cbn [LatencyCheck.all_from] in H. apply andb_true_iff in H. destruct H as [H1 H2].
    rewrite Nat2Z.inj_succ, Z.pow_succ_r in Hw, Hlo, Hi by lia.
    assert (Hh : Uint63.to_Z (Uint63.lsr w 1%uint63) = 2 ^ Z.of_nat k).
    { rewrite Uint63.lsr_spec, Hw. change (Uint63.to_Z 1%uint63) with 1.
      rewrite Z.pow_1_r, Z.mul_comm, Z.div_mul; lia. }
    pose proof (Uint63.to_Z_bounded lo) as Hb.
    assert (0 < 2 ^ Z.of_nat k) by (apply Z.pow_pos_nonneg; lia).
    destruct (Z_lt_ge_dec (Uint63.to_Z i) (Uint63.to_Z lo + 2 ^ Z.of_nat k)) as [Hlt | Hge].
    + apply (IH _ lo Hh); [lia | done | lia].
    + assert (Hadd : Uint63.to_Z (Uint63.add lo (Uint63.lsr w 1%uint63))
                     = Uint63.to_Z lo + 2 ^ Z.of_nat k).
      { rewrite Uint63.add_spec, Hh. apply Z.mod_small. lia. }
      apply (IH _ (Uint63.add lo (Uint63.lsr w 1%uint63)) Hh); rewrite ?Hadd;
        [lia | done | lia].
Qed.

(** Every duration below [2^21] ns (about 2.1 ms) is checked. *)
Lemma ceiling_checked :
  LatencyCheck.all_from LatencyCheck.is_ceiling 21 2097152%uint63 0%uint63 = true.
Proof. vm_compute. reflexivity. Qed.

(** Up to [2^21] ns the float computation is the exact integer ceiling. *)
Lemma latency_of_ceiling (d : Z) :
  0 <= d < 2 ^ 21 -> latency_of d = (d + 999999) / 1000000.
Proof.
  intros Hd.
  assert (Hi : Uint63.to_Z (Uint63.of_Z d) = d).
  { rewrite Uint63.of_Z_spec. apply Z.mod_small.
    change Uint63.wB with (2 ^ 63). split; [lia |].
    apply Z.lt_trans with (2 ^ 21); [lia | done]. }
  pose proof (all_from_sound LatencyCheck.is_ceiling 21
                2097152%uint63 0%uint63 eq_refl) as Hall.
  specialize (Hall ltac:(by vm_compute) ceiling_checked (Uint63.of_Z d)).
  rewrite Hi in Hall. change (Uint63.to_Z 0%uint63) with 0 in Hall.
  specialize (Hall ltac:(change (Z.of_nat 21) with 21; lia)).
  unfold LatencyCheck.is_ceiling, LatencyCheck.lat in Hall.
  apply andb_true_iff in Hall. destruct Hall as [Hpos Heq].
  apply negb_true_iff in Hpos. apply Uint63.eqb_spec in Heq.
  unfold latency_of, time.Nanoseconds, math.float64_of_int64, math.int_of_float64.
  assert (Hmin : strconv.minInt64 < 0) by done.
  replace (d =? strconv.minInt64) with false by (symmetry; apply Z.eqb_neq; lia).
  replace (d <? 0) with false by (symmetry; apply Z.ltb_ge; lia).
  rewrite Hpos, Heq.
  rewrite Uint63.div_spec, Uint63.add_spec, Hi.
  change (Uint63.to_Z 999999%uint63) with 999999.
  change (Uint63.to_Z 1000000%uint63) with 1000000.
  rewrite Z.mod_small; [done |].
  change Uint63.wB with (2 ^ 63). split; [lia |].
  apply Z.lt_trans with (2 ^ 22); [| done].
  assert (2 ^ 22 = 2 * 2 ^ 21) as -> by done. lia.
Qed.

(** ** The middlewares, step by step *)

Arguments http.Get : simpl never.
Arguments http.SetValue : simpl never.
Arguments strconv.FormatInt : simpl never.
Arguments latency_of : simpl never.
Arguments time.Sub : simpl never.

Section Middleware.

Context (env : Environ).

Lemma tracing_run (next : Handler) (r : http.Request) (s : State) :
  tracing next r s = next (traced r (request_id r s)) (after_tracing r s).
Proof.
  unfold tracing, traced, after_tracing, request_id, bind, ret, Now, on_response.
  destruct (String.eqb (http.Get (http.Header r) "X-Request-Id") ""); reflexivity.
Qed.

Lemma logging_run (next : Handler) (r : http.Request) (s : State) :
  exec (logging env next r) s =
  let s2 := exec (next r) (started s) in
  mkState (st_w s2) (st_log s2 ++ [access_entry env r (elapsed s s2)])
          (st_sent s2) (st_clock s2) (S (st_tick s2)).
Proof.
  unfold exec, logging, access_entry, context_id, elapsed, started, Since, bind, ret,
    Now, emit.
  simpl. destruct (next r _) as [[] s2]. reflexivity.
Qed.

Lemma context_id_traced (r : http.Request) (rid : string) :
  context_id (traced r rid) = rid.
Proof. reflexivity. Qed.

(** What the server does with any request, around the router. *)
Lemma serve_run (h : Handler) (r : http.Request) (s : State) :
  serve (tracing (logging env h)) r s =
  let s0 := mkState http.newResponse (st_log s) (st_sent s) (st_clock s) (st_tick s) in
  let r' := traced r (request_id r s) in
  let s1 := after_tracing r s0 in
  let s2 := exec (h r') (started s1) in
  mkState (http.finishRequest (st_w s2))
          (st_log s2 ++ [access_entry env r' (elapsed s1 s2)])
          (st_sent s2) (st_clock s2) (S (st_tick s2)).
Proof.
  unfold serve. cbv zeta.
  set (s0 := mkState http.newResponse _ _ _ _).
  change (request_id r s) with (request_id r s0).
  unfold exec at 1. unfold bind at 1. rewrite tracing_run.
  pose proof (logging_run h (traced r (request_id r s0)) (after_tracing r s0)) as Hl.
  unfold exec at 1 in Hl.
  destruct (logging env h _ _) as [[] s3]. simpl in Hl. subst s3.
  reflexivity.
Qed.

End Middleware.

(** ** The webhook route *)

Section WebhookRoute.

Context (env : Environ).
Variables (secret : string) (telegramChatID : Z) (Version : string).

(** The handler, as one step on the state, by the result of [Parse]. *)
Lemma webhookHandler_run (r : http.Request) (s : State) :
  exec (webhookHandler env secret telegramChatID r) s =
  match webhook.results (webhook.Parse (codec env) secret r [webhook.WatchEvent]) with
  | (webhook.isWatchPayload pl, err) =>
      mkState (http.Write acknowledgment (http.Write "OK" (st_w s)))
              (st_log s ++ hook_errors r err
               ++ hook_watch_entries env (hook_message telegramChatID pl))
              (st_sent s ++ [hook_message telegramChatID pl])
              (st_clock s) (st_tick s)
  | (_, err) =>
      mkState (http.Write acknowledgment (st_w s))
              (st_log s ++ hook_errors r err) (st_sent s)
              (st_clock s) (st_tick s)
  end.
Proof.
  unfold exec, webhookHandler, hook_errors, hook_watch_entries, hook_message.
  destruct (webhook.results (webhook.Parse _ _ _ _)) as [payload err].
  unfold bind, ret, emit, Fprint, on_response, bot_Send, acknowledgment.
  destruct err as [e |]; [destruct (decide (e = webhook.ErrEventNotFound)) |];
    try subst e;
    destruct payload as [| pl | ev]; cbn [fst snd st_w st_log st_sent st_clock st_tick];
    rewrite ?app_nil_r; try reflexivity;
    destruct (Send_err env _); cbn [fst snd st_w st_log st_sent st_clock st_tick];
    rewrite <- ?app_assoc; reflexivity.
Qed.

Lemma router_webhook (r : http.Request) :
  http.Method r = "POST" -> http.URL_Path r = "/webhook" ->
  router env secret telegramChatID Version r = webhookHandler env secret telegramChatID r.
Proof.
  intros Hm Hp. unfold router, mux.ServeHTTP. cbn [mux.dispatch mux.route_path
    mux.route_method mux.route_handler]. rewrite Hm, Hp. reflexivity.
Qed.

Lemma Parse_traced (r : http.Request) (rid : string) (events : list webhook.Event) :
  webhook.Parse (codec env) secret (traced r rid) events
  = webhook.Parse (codec env) secret r events.
Proof. reflexivity. Qed.

(** A POST to [/webhook] through the whole chain: the response, the
    entries logged and the messages sent, by the result of [Parse]. *)
Lemma serve_webhook (r : http.Request) (s : State) :
  http.Method r = "POST" -> http.URL_Path r = "/webhook" ->
  let s' := serve (srv_Handler env secret telegramChatID Version) r s in
  let w1 := http.SetHeader "X-Request-Id" (request_id r s) http.newResponse in
  let access := access_entry env (traced r (request_id r s)) (idle_elapsed r s) in
  match webhook.results (webhook.Parse (codec env) secret r [webhook.WatchEvent]) with
  | (webhook.isWatchPayload pl, err) =>
      st_w s' = http.Write acknowledgment (http.Write "OK" w1)
      /\ logged s s' = hook_errors r err
                       ++ hook_watch_entries env (hook_message telegramChatID pl)
                       ++ [access]
      /\ outbound s s' = [hook_message telegramChatID pl]
  | (_, err) =>
      st_w s' = http.Write acknowledgment w1
      /\ logged s s' = hook_errors r err ++ [access]
      /\ outbound s s' = []
  end.
Proof.
  intros Hm Hp s' w1 access. subst s' access. unfold srv_Handler.
  rewrite serve_run. cbv zeta.
  rewrite router_webhook by done. rewrite webhookHandler_run, Parse_traced.
  destruct (webhook.results (webhook.Parse _ _ _ _)) as [[| pl | ev] err];
    unfold logged, outbound; cbn [st_w st_log st_sent after_tracing started];
    rewrite <- ?app_assoc, ?drop_app_length; (split; [reflexivity |]);
    (split; [reflexivity |]); rewrite <- 1?(app_nil_r (st_sent s)) at 2;
    rewrite ?drop_app_length; reflexivity.
Qed.

(** On a connection: the request is answered as [serve] tells whenever
    it sets off no panic. *)
Lemma conn_serve_Answered (r : http.Request) (s : State) :
  panics env secret r = false ->
  conn_serve env secret telegramChatID Version r s
  = Answered (serve (srv_Handler env secret telegramChatID Version) r s).
Proof. intros H. unfold conn_serve. by rewrite H. Qed.

(** It is dropped without an answer when [Parse] panics: nothing was
    logged and nothing sent by then. *)
Lemma conn_serve_Aborted (r : http.Request) (s : State) :
  panics env secret r = true ->
  conn_serve env secret telegramChatID Version r s
  = Aborted (started (after_tracing r
               (mkState http.newResponse (st_log s) (st_sent s) (st_clock s) (st_tick s)))).
Proof.
  intros H. unfold conn_serve. rewrite H. cbv zeta. unfold exec.
  rewrite tracing_run. reflexivity.
Qed.

(** [panics] picks the requests that reach the call of [Parse] in the
    handler of [/webhook], and on which that call panics. *)
Lemma panics_routed (r : http.Request) :
  panics env secret r = true ->
  router env secret telegramChatID Version r = webhookHandler env secret telegramChatID r
  /\ webhook.Parse (codec env) secret r [webhook.WatchEvent] = webhook.Panics.
Proof.
  unfold panics. intros [[Hp Hm]%andb_true_iff HP]%andb_true_iff.
  apply String.eqb_eq in Hp, Hm. split; [by apply router_webhook |].
  by destruct (webhook.Parse _ _ _ _).
Qed.

Lemma panics_false (r : http.Request) :
  webhook.Parse (codec env) secret r [webhook.WatchEvent] ≠ webhook.Panics ->
  panics env secret r = false.
Proof.
  intros H. unfold panics.
  destruct (webhook.Parse _ _ _ _); [done | apply andb_false_r].
Qed.

End WebhookRoute.

(** ** What [Parse] returns, by the shape of the request *)

Section ParseCases.

Context (c : webhook.Codec) (secret : string).

(** An event other than [watch] is refused before the body and the
    signature are looked at. *)
Lemma Parse_other_event (r : http.Request) :
  http.Method r = "POST" -> event_of r ≠ "watch" ->
  webhook.Parse c secret r [webhook.WatchEvent]
  = webhook.Returns webhook.nilPayload
      (Some (if String.eqb (event_of r) "" then webhook.ErrMissingGithubEventHeader
             else webhook.ErrEventNotFound)).
Proof.
  intros Hm He. unfold webhook.Parse, event_of in *. rewrite Hm. cbn [String.eqb negb].
  change (Ascii.eqb _ _ && _) with true. cbn [negb].
  destruct (String.eqb _ "") eqn:E; [reflexivity |].
  rewrite bool_decide_eq_false_2; [reflexivity |].
  unfold webhook.WatchEvent. intros H%list_elem_of_singleton. by apply He.
Qed.

(** [Parse] on a POST that names the [watch] event, by the body and the
    signature header. *)
Lemma Parse_watch (r : http.Request) :
  http.Method r = "POST" -> event_of r = "watch" ->
  webhook.Parse c secret r [webhook.WatchEvent]
  = if String.eqb (http.Body r) ""
    then webhook.Returns webhook.nilPayload (Some webhook.ErrParsingPayload)
    else
      let decoded :=
        webhook.Returns (webhook.isWatchPayload (fst (webhook.Unmarshal c (http.Body r))))
                        (snd (webhook.Unmarshal c (http.Body r))) in
      if String.eqb secret "" then decoded
      else
        let signature := http.Get (http.Header r) "X-Hub-Signature" in
        if String.eqb signature ""
        then webhook.Returns webhook.nilPayload (Some webhook.ErrMissingHubSignatureHeader)
        else
          match slice_from signature 5 with
          | None => webhook.Panics
          | Some mac =>
              if webhook.mac_ok c secret (http.Body r) mac then decoded
              else webhook.Returns webhook.nilPayload (Some webhook.ErrHMACVerificationFailed)
          end.
Proof.
  intros Hm He. unfold webhook.Parse, event_of in *. rewrite Hm, He.
  change (negb (String.eqb "POST" "POST")) with false.
  change (String.eqb "watch" "") with false.
  change (String.eqb "watch" webhook.WatchEvent) with true.
  change (negb (bool_decide ("watch" ∈ [webhook.WatchEvent])))
    with (negb (bool_decide ("watch" ∈ ["watch"]))).
  rewrite bool_decide_eq_true_2 by apply list_elem_of_here.
  cbn [negb]. cbv zeta. by destruct (webhook.Unmarshal c (http.Body r)).
Qed.

(** The call panics on one kind of request only: a POST that names the
    [watch] event, has a body and, the secret being set, carries a
    signature header of one to four bytes. *)
Lemma Parse_Panics_iff (r : http.Request) :
  webhook.Parse c secret r [webhook.WatchEvent] = webhook.Panics
  <-> http.Method r = "POST" /\ event_of r = "watch" /\ http.Body r ≠ ""
      /\ secret ≠ ""
      /\ http.Get (http.Header r) "X-Hub-Signature" ≠ ""
      /\ slice_from (http.Get (http.Header r) "X-Hub-Signature") 5 = None.
Proof.
  split.
  - intros HP.
    destruct (String.eqb (http.Method r) "POST") eqn:Em.
    2:{ unfold webhook.Parse in HP. rewrite Em in HP. discriminate HP. }
    apply String.eqb_eq in Em.
    destruct (decide (event_of r = "watch")) as [He | He].
    2:{ rewrite (Parse_other_event r Em He) in HP. discriminate HP. }
    rewrite (Parse_watch r Em He) in HP. cbv zeta in HP.
    destruct (String.eqb (http.Body r) "") eqn:Eb; [discriminate HP |].
    destruct (String.eqb secret "") eqn:Es; [discriminate HP |].
    destruct (String.eqb (http.Get (http.Header r) "X-Hub-Signature") "") eqn:Eg;
      [discriminate HP |].
    destruct (slice_from _ 5) as [mac |] eqn:El.
    { destruct (webhook.mac_ok c secret (http.Body r) mac); discriminate HP. }
    apply String.eqb_neq in Eb, Es, Eg. done.
  - intros (Hm & He & Hb & Hs & Hg & Hl).
    rewrite (Parse_watch r Hm He). cbv zeta.
    by rewrite (eqb_empty_false _ Hb), (eqb_empty_false _ Hs), (eqb_empty_false _ Hg), Hl.
Qed.

(** A signature that the hook accepts is long enough to be sliced: the
    call returns. *)
Lemma valid_signature_Returns (r : http.Request) :
  webhook.valid_signature c secret r = true ->
  webhook.Parse c secret r [webhook.WatchEvent] ≠ webhook.Panics.
Proof.
  intros Hv (_ & _ & _ & _ & _ & Hl)%Parse_Panics_iff.
  unfold webhook.valid_signature, webhook.signature_ok in Hv.
  rewrite Hl, andb_false_r in Hv. discriminate Hv.
Qed.

Lemma Parse_watch_invalid (r : http.Request) :
  http.Method r = "POST" -> event_of r = "watch" -> secret ≠ "" ->
  webhook.valid_signature c secret r = false ->
  webhook.results (webhook.Parse c secret r [webhook.WatchEvent])
  = (webhook.nilPayload, Some (watch_failure r)).
Proof.
  intros Hm He Hs Hv. rewrite (Parse_watch r Hm He). cbv zeta.
  unfold webhook.valid_signature, webhook.signature_ok, watch_failure in *.
  rewrite (eqb_empty_false secret Hs).
  destruct (String.eqb (http.Body r) "") eqn:Eb; [reflexivity |].
  destruct (String.eqb (http.Get (http.Header r) "X-Hub-Signature") "") eqn:Es;
    [reflexivity |].
  cbn [negb andb] in Hv.
  destruct (slice_from _ 5) as [mac |]; [| reflexivity].
  rewrite Hv. reflexivity.
Qed.

Lemma Parse_watch_valid (r : http.Request) :
  http.Method r = "POST" -> event_of r = "watch" -> http.Body r ≠ "" ->
  webhook.valid_signature c secret r = true ->
  webhook.Parse c secret r [webhook.WatchEvent]
  = webhook.Returns (webhook.isWatchPayload (fst (webhook.Unmarshal c (http.Body r))))
                    (snd (webhook.Unmarshal c (http.Body r))).
Proof.
  intros Hm He Hb Hv. rewrite (Parse_watch r Hm He). cbv zeta.
  unfold webhook.valid_signature, webhook.signature_ok in Hv.
  rewrite (eqb_empty_false _ Hb).
  apply andb_true_iff in Hv. destruct Hv as [Hs Hok].
  apply negb_true_iff in Hs. rewrite Hs.
  destruct (slice_from _ 5) as [mac |]; [| discriminate Hok].
  rewrite Hok. by destruct (String.eqb secret "").
Qed.

(** Whatever the request, [Parse] gives [nil] or a [WatchPayload] when
    asked for [watch] events only. *)
Lemma Parse_watch_only (r : http.Request) :
  forall ev,
    fst (webhook.results (webhook.Parse c secret r [webhook.WatchEvent]))
    ≠ webhook.otherPayload ev.
Proof.
  intros ev. unfold webhook.Parse. cbv zeta.
  repeat match goal with
         | |- context [if ?b then _ else _] => destruct b eqn:?
         | |- context [let (_, _) := ?x in _] => destruct x
         | |- context [match slice_from ?x ?n with _ => _ end] => destruct (slice_from x n)
         end; cbn [fst webhook.results]; try discriminate.
  all: exfalso;
    match goal with H : negb (bool_decide _) = false |- _ =>
      apply negb_false_iff, bool_decide_eq_true_1, list_elem_of_singleton in H;
      rewrite H in * end;
    discriminate.
Qed.

End ParseCases.

(** ** Entries at error level *)

Lemma errors_app (l1 l2 : list logrus.Entry) :
  logrus.errors (l1 ++ l2) = logrus.errors l1 ++ logrus.errors l2.
Proof. apply filter_app. Qed.

Lemma errors_access (env : Environ) (r : http.Request) (stop : Z) :
  logrus.errors [access_entry env r stop] = [].
Proof. reflexivity. Qed.

Lemma errors_hook_errors (r : http.Request) (err : option error) :
  logrus.errors (hook_errors r err) = hook_errors r err.
Proof.
  unfold hook_errors. destruct err as [e |]; [| reflexivity].
  destruct (decide _); reflexivity.
Qed.

Lemma errors_hook_watch_entries (env : Environ) (msg : tgbotapi.MessageConfig) :
  logrus.errors (hook_watch_entries env msg) = [].
Proof. unfold hook_watch_entries. destruct (Send_err env msg); reflexivity. Qed.

(** ** The response of the webhook route *)

Lemma Write_status (p : string) (w : http.response) :
  http.wroteHeader w = false -> http.status (http.Write p w) = 200.
Proof. intros H. unfold http.Write, http.WriteHeader. by rewrite H. Qed.

Lemma Write_status_kept (p : string) (w : http.response) :
  http.wroteHeader w = true -> http.status (http.Write p w) = http.status w.
Proof. intros H. unfold http.Write, http.WriteHeader. by rewrite H. Qed.

Lemma Write_body (p : string) (w : http.response) :
  http.body (http.Write p w) = http.body w +:+ p.
Proof. unfold http.Write, http.WriteHeader. by destruct (http.wroteHeader w). Qed.

Lemma Write_wroteHeader (p : string) (w : http.response) :
  http.wroteHeader (http.Write p w) = true.
Proof. unfold http.Write, http.WriteHeader. by destruct (http.wroteHeader w) eqn:E. Qed.

Lemma Write_sentHeader (p : string) (w : http.response) :
  http.wroteHeader w = false ->
  http.sentHeader (http.Write p w) = http.handlerHeader w.
Proof. intros H. unfold http.Write, http.WriteHeader. by rewrite H. Qed.

Lemma Write_sentHeader_kept (p : string) (w : http.response) :
  http.wroteHeader w = true ->
  http.sentHeader (http.Write p w) = http.sentHeader w.
Proof. intros H. unfold http.Write, http.WriteHeader. by rewrite H. Qed.

(** ** The webhook endpoint: what a caller and the chat see *)

Lemma rawMsgS_Contains (pl : webhook.WatchPayload) :
  strings.Contains (rawMsgS pl) (webhook.Name (webhook.Repository pl)) = true
  /\ strings.Contains (rawMsgS pl)
       (strconv.FormatInt (webhook.StargazersCount (webhook.Repository pl))) = true
  /\ strings.Contains (rawMsgS pl) (webhook.HTMLURL (webhook.Sender pl)) = true.
Proof.
  unfold rawMsgS. repeat split.
  - apply Contains_append_l, Contains_append_r, Contains_self.
  - do 7 apply Contains_append_l. apply Contains_append_r, Contains_self.
  - do 11 apply Contains_append_l. apply Contains_self.
Qed.

Section WebhookEndpoint.

Context (env : Environ).
Variables (secret : string) (telegramChatID : Z) (Version : string).

Local Abbreviation run := (serve (srv_Handler env secret telegramChatID Version)).

(** A request with a signature that the hook accepts sets off no panic:
    on the connection it is answered as [serve] tells. *)
Lemma valid_signature_Answered (r : http.Request) (s : State) :
  webhook.valid_signature (codec env) secret r = true ->
  conn_serve env secret telegramChatID Version r s = Answered (run r s).
Proof.
  intros Hv. by apply conn_serve_Answered, panics_false, valid_signature_Returns.
Qed.

(** C1 (as amended): a POST to /webhook with a valid signature, the header
    X-GitHub-Event: watch and a payload decoded to repository name
    "star", stargazers_count 42 and sender html_url
    "https://github.com/alice" is answered with status 200 and the body
    "OK" followed by the acknowledgment text, and exactly one chat
    message goes out, to the configured chat in markdown mode, whose text
    contains "star", "42" and the sender URL. *)
Theorem watch_star_notifies (r : http.Request) (s : State) (pl : webhook.WatchPayload) :
  http.Method r = "POST" -> http.URL_Path r = "/webhook" ->
  event_of r = "watch" ->
  webhook.valid_signature (codec env) secret r = true ->
  http.Body r ≠ "" ->
  webhook.Unmarshal (codec env) (http.Body r) = (pl, None) ->
  webhook.Name (webhook.Repository pl) = "star" ->
  webhook.StargazersCount (webhook.Repository pl) = 42 ->
  webhook.HTMLURL (webhook.Sender pl) = "https://github.com/alice" ->
  http.status (st_w (run r s)) = 200
  /\ http.body (st_w (run r s)) = "OK" +:+ acknowledgment
  /\ exists msg,
       outbound s (run r s) = [msg]
       /\ tgbotapi.ChatID msg = telegramChatID
       /\ tgbotapi.ParseMode msg = "markdown"
       /\ strings.Contains (tgbotapi.Text msg) "star" = true
       /\ strings.Contains (tgbotapi.Text msg) "42" = true
       /\ strings.Contains (tgbotapi.Text msg) "https://github.com/alice" = true.
Proof.
  intros Hm Hp He Hv Hb Hu Hname Hcount Hurl.
  pose proof (serve_webhook env secret telegramChatID Version r s Hm Hp) as H.
  cbv zeta in H. rewrite (Parse_watch_valid _ _ r Hm He Hb Hv), Hu in H.
  cbn [fst snd] in H. destruct H as (Hw & _ & Ho).
  rewrite Hw, Ho. split; [reflexivity |]. split; [reflexivity |].
  exists (hook_message telegramChatID pl). split; [reflexivity |].
  split; [reflexivity |]. split; [reflexivity |].
  destruct (rawMsgS_Contains pl) as (Hn & Hc & Hh).
  rewrite Hname in Hn. rewrite Hcount in Hc. rewrite Hurl in Hh.
  by repeat split.
Qed.

(** C2 (as amended): a POST to /webhook whose signature is invalid (under
    the non-empty secret every served handler has), and on which
    [hook.Parse] returns, is answered with status 200 and the
    acknowledgment text alone, and no chat message goes out.  An
    error-level entry, carrying the raw X-GitHub-Event header value, is
    logged exactly when that header is non-empty and names an event other
    than watch; a watch request with an invalid signature logs no error.
    (The request on which [hook.Parse] panics, see [Parse_Panics_iff], is
    left out.) *)
Theorem invalid_signature_absorbed (r : http.Request) (s : State) :
  http.Method r = "POST" -> http.URL_Path r = "/webhook" ->
  secret ≠ "" ->
  webhook.valid_signature (codec env) secret r = false ->
  webhook.Parse (codec env) secret r [webhook.WatchEvent] ≠ webhook.Panics ->
  exists s',
    conn_serve env secret telegramChatID Version r s = Answered s'
    /\ http.status (st_w s') = 200
    /\ http.body (st_w s') = acknowledgment
    /\ outbound s s' = []
    /\ logrus.errors (logged s s')
       = if String.eqb (event_of r) "" || String.eqb (event_of r) "watch" then []
         else [event_entry (event_of r)].
Proof.
  intros Hm Hp Hs Hv Hret. exists (run r s).
  split; [by apply conn_serve_Answered, panics_false |].
  pose proof (serve_webhook env secret telegramChatID Version r s Hm Hp) as H.
  cbv zeta in H.
  destruct (String.eqb (event_of r) "watch") eqn:Ew.
  - apply String.eqb_eq in Ew.
    rewrite (Parse_watch_invalid _ _ r Hm Ew Hs Hv) in H.
    destruct H as (Hw & Hl & Ho). rewrite Hw, Hl, Ho, errors_app, errors_access.
    rewrite orb_true_r. repeat split.
    unfold hook_errors, watch_failure.
    by repeat match goal with |- context [String.eqb ?a ?b] => destruct (String.eqb a b) end.
  - apply String.eqb_neq in Ew.
    rewrite (Parse_other_event _ _ r Hm Ew) in H. cbn [webhook.results] in H.
    destruct H as (Hw & Hl & Ho). rewrite Hw, Hl, Ho, errors_app, errors_access.
    rewrite orb_false_r. repeat split.
    unfold hook_errors. by destruct (String.eqb (event_of r) "").
Qed.

(** C3 (as amended): a POST to /webhook with a valid signature and an
    event type other than watch is answered with status 200 and the
    acknowledgment text alone, and no chat message goes out.  When the
    X-GitHub-Event header is non-empty (push, say) exactly one error-level
    entry is logged, carrying the header value; when it is empty none is. *)
Theorem other_event_logged (r : http.Request) (s : State) :
  http.Method r = "POST" -> http.URL_Path r = "/webhook" ->
  webhook.valid_signature (codec env) secret r = true ->
  event_of r ≠ "watch" ->
  http.status (st_w (run r s)) = 200
  /\ http.body (st_w (run r s)) = acknowledgment
  /\ outbound s (run r s) = []
  /\ logrus.errors (logged s (run r s))
     = if String.eqb (event_of r) "" then [] else [event_entry (event_of r)].
Proof.
  intros Hm Hp _ Ew.
  pose proof (serve_webhook env secret telegramChatID Version r s Hm Hp) as H.
  cbv zeta in H.
  rewrite (Parse_other_event _ _ r Hm Ew) in H.
  destruct H as (Hw & Hl & Ho). rewrite Hw, Hl, Ho, errors_app, errors_access.
  repeat split. unfold hook_errors. by destruct (String.eqb (event_of r) "").
Qed.

(** Whenever [hook.Parse] returns, a POST to /webhook is answered, with
    status 200: whatever [Parse] made of it and whether or not [bot.Send]
    failed. *)
Lemma webhook_answered_200 (r : http.Request) (s : State) :
  http.Method r = "POST" -> http.URL_Path r = "/webhook" ->
  webhook.Parse (codec env) secret r [webhook.WatchEvent] ≠ webhook.Panics ->
  conn_serve env secret telegramChatID Version r s = Answered (run r s)
  /\ http.status (st_w (run r s)) = 200.
Proof.
  intros Hm Hp Hret. split; [by apply conn_serve_Answered, panics_false |].
  pose proof (serve_webhook env secret telegramChatID Version r s Hm Hp) as H.
  cbv zeta in H.
  destruct (webhook.results (webhook.Parse _ _ _ _)) as [[| pl | ev] err];
    destruct H as (Hw & _ & _); by rewrite Hw.
Qed.

(** A watch request with a body and a signature header of one to four
    bytes gets no answer, under any secret that is set: [hook.Parse]
    panics on the slice and the connection is closed, with nothing
    logged and nothing sent. *)
Lemma short_signature_aborts (r : http.Request) (s : State) :
  http.Method r = "POST" -> http.URL_Path r = "/webhook" ->
  event_of r = "watch" -> http.Body r ≠ "" -> secret ≠ "" ->
  http.Get (http.Header r) "X-Hub-Signature" ≠ "" ->
  slice_from (http.Get (http.Header r) "X-Hub-Signature") 5 = None ->
  webhook.valid_signature (codec env) secret r = false
  /\ exists s',
       conn_serve env secret telegramChatID Version r s = Aborted s'
       /\ st_log s' = st_log s /\ st_sent s' = st_sent s.
Proof.
  intros Hm Hp He Hb Hs Hg Hl. split.
  - unfold webhook.valid_signature, webhook.signature_ok. rewrite Hl. apply andb_false_r.
  - eexists. split.
    + apply conn_serve_Aborted. unfold panics. rewrite Hm, Hp.
      by rewrite (proj2 (Parse_Panics_iff (codec env) secret r)).
    + split; reflexivity.
Qed.

(** C10: the body of the answer to a POST to /webhook ends with the
    acknowledgment text "Event received. Have a nice day": it is that
    text alone when no message went out, and "OK" followed by that text
    when the notification was sent. *)
Theorem webhook_body_ends_with_acknowledgment (r : http.Request) (s : State) :
  http.Method r = "POST" -> http.URL_Path r = "/webhook" ->
  strings.HasSuffix (http.body (st_w (run r s))) "Event received. Have a nice day" = true
  /\ ((outbound s (run r s) = [] /\ http.body (st_w (run r s)) = acknowledgment)
      \/ (exists msg, outbound s (run r s) = [msg]
                      /\ http.body (st_w (run r s)) = "OK" +:+ acknowledgment)).
Proof.
  intros Hm Hp.
  pose proof (serve_webhook env secret telegramChatID Version r s Hm Hp) as H.
  cbv zeta in H.
  destruct (webhook.results (webhook.Parse _ _ _ _)) as [[| pl | ev] err];
    destruct H as (Hw & _ & Ho); rewrite Hw, Ho; (split; [reflexivity |]);
    [left | right; eexists | left]; by split.
Qed.

End WebhookEndpoint.

(** ** The middlewares: correlation id, latency, client address *)





Section MiddlewareClaims.

Context (env : Environ).
Variables (secret : string) (telegramChatID : Z) (Version : string).

Local Abbreviation run := (serve (srv_Handler env secret telegramChatID Version)).



(** C6 (as amended): when the handler under [logging] takes at least 1 ms
    and less than 2 ms, the latency recorded is the ceiling of the elapsed
    nanoseconds divided by one million: 1 when exactly 1,000,000 ns
    elapsed, 2 otherwise, and never 0. *)
Theorem latency_is_ceiling (next : Handler) (r : http.Request) (s : State) :
  let d := elapsed s (exec (next r) (started s)) in
  1000000 <= d < 2000000 ->
  exists e, last_entry (exec (logging env next r) s) = Some e
            /\ logrus.field e "latency"
               = Some (logrus.FInt (if d =? 1000000 then 1 else 2)).
Proof.
  cbv zeta. intros Hd. unfold last_entry. rewrite logging_run. cbv zeta. cbn [st_log].
  rewrite last_snoc. eexists. split; [reflexivity |].
  cbn [logrus.field logrus.Data access_entry List.find String.eqb Ascii.eqb
       Bool.eqb fst snd fmap option_fmap option_map].
  do 2 f_equal.
  set (d := elapsed s (exec (next r) (started s))) in *.
  rewrite latency_of_ceiling by (split; [lia | apply Z.lt_trans with 2000000; [lia | done]]).
  destruct (Z.eqb_spec d 1000000) as [-> | Hne]; [done |].
  symmetry. apply (Z.div_unique_pos (d + 999999) 1000000 2 (d - 1000001)); lia.
Qed.

(** X9: Below that range the ceiling is at work too: anything from 1 ns to
    1 ms is recorded as 1, and only a reading of 0 ns as 0. *)
Lemma latency_up_to_1ms (next : Handler) (r : http.Request) (s : State) :
  let d := elapsed s (exec (next r) (started s)) in
  0 <= d <= 1000000 ->
  exists e, last_entry (exec (logging env next r) s) = Some e
            /\ logrus.field e "latency"
               = Some (logrus.FInt (if d =? 0 then 0 else 1)).
Proof.
  cbv zeta. intros Hd. unfold last_entry. rewrite logging_run. cbv zeta. cbn [st_log].
  rewrite last_snoc. eexists. split; [reflexivity |].
  cbn [logrus.field logrus.Data access_entry List.find String.eqb Ascii.eqb
       Bool.eqb fst snd fmap option_fmap option_map].
  do 2 f_equal.
  set (d := elapsed s (exec (next r) (started s))) in *.
  rewrite latency_of_ceiling by (split; [lia | apply Z.le_lt_trans with 1000000; [lia | done]]).
  destruct (Z.eqb_spec d 0) as [-> | Hne]; [done |].
  symmetry. apply (Z.div_unique_pos (d + 999999) 1000000 1 (d - 1)); lia.
Qed.

(** C8: the client address the access logger records is the X-Real-Ip
    header value when that is non-empty, else the X-Forwarded-For header
    value when that is non-empty, else the remote address of the
    connection. *)
Theorem client_address_precedence (next : Handler) (r : http.Request) (s : State) :
  exists e ip,
    last_entry (exec (logging env next r) s) = Some e
    /\ logrus.field e "clientIP" = Some (logrus.FString ip)
    /\ (http.Get (http.Header r) "X-Real-Ip" ≠ "" ->
        ip = http.Get (http.Header r) "X-Real-Ip")
    /\ (http.Get (http.Header r) "X-Real-Ip" = "" ->
        http.Get (http.Header r) "X-Forwarded-For" ≠ "" ->
        ip = http.Get (http.Header r) "X-Forwarded-For")
    /\ (http.Get (http.Header r) "X-Real-Ip" = "" ->
        http.Get (http.Header r) "X-Forwarded-For" = "" ->
        ip = http.RemoteAddr r).
Proof.
  unfold last_entry. rewrite logging_run. cbv zeta. cbn [st_log]. rewrite last_snoc.
  eexists. exists (clientIP r). split; [reflexivity |]. split; [reflexivity |].
  unfold clientIP. cbv zeta. repeat split.
  - intros H. by rewrite !(eqb_empty_false _ H).
  - intros -> H. cbn [String.eqb]. by rewrite !(eqb_empty_false _ H).
  - by intros -> ->.
Qed.

End MiddlewareClaims.

(** ** Start-up *)

Lemma getenv_empty_fallback (p : Process) (k : string) :
  getenv p k "" = os_Getenv p k.
Proof.
  unfold getenv. destruct (os_Getenv p k) as [| c v]; reflexivity.
Qed.

Section StartUp.

Context (env : Environ) (Version : string) (p : Process).

Lemma main_past_secret :
  os_Getenv p "GITHUB_SECRET" ≠ "" ->
  snd (main env Version p) = connect_and_serve env Version p
  /\ (secret_fatal ∉ fst (main env Version p))
  /\ (os_Getenv p "TELEGRAM_TOKEN" = "" ->
      plain logrus.ErrorLevel "Telegram token not set" ∈ fst (main env Version p))
  /\ (os_Getenv p "TELEGRAM_CHAT" = "" ->
      plain logrus.ErrorLevel "Telegram Chat ID not set" ∈ fst (main env Version p)).
Proof.
  intros Hs. rewrite <- !getenv_empty_fallback in *.
  unfold main, connect_and_serve, telegramChatID_of, Addr, secret_fatal, plain.
  rewrite (eqb_empty_false _ Hs).
  destruct (String.eqb (getenv p "TELEGRAM_TOKEN" "") "") eqn:Et;
    destruct (String.eqb (getenv p "TELEGRAM_CHAT" "") "") eqn:Ec;
    destruct (NewBotAPI_err p _) as [eb |];
    try destruct (ListenAndServe_err p _) as [el |];
    cbn [fst snd app];
    (split; [reflexivity |]);
    (split; [intros H; repeat (apply elem_of_cons in H as [H | H]; [discriminate |]);
             by apply elem_of_nil in H |]);
    (split; intros Hx; [apply String.eqb_eq in Hx; rewrite Hx in Et
                       | apply String.eqb_eq in Hx; rewrite Hx in Ec]);
    try discriminate; set_solver.
Qed.

(** A handler that [main] serves was built with a non-empty secret. *)
Lemma served_secret_nonempty (addr : string) (h : Handler) :
  snd (main env Version p) = Serving addr h ->
  os_Getenv p "GITHUB_SECRET" ≠ ""
  /\ h = srv_Handler env (os_Getenv p "GITHUB_SECRET") (telegramChatID_of p) Version.
Proof.
  intros Hserve.
  destruct (decide (os_Getenv p "GITHUB_SECRET" = "")) as [He | Hne].
  - exfalso. unfold main in Hserve. rewrite getenv_empty_fallback, He in Hserve.
    discriminate.
  - split; [done |]. destruct (main_past_secret Hne) as (Hend & _).
    rewrite Hend in Hserve. unfold connect_and_serve in Hserve.
    rewrite !getenv_empty_fallback in Hserve.
    destruct (NewBotAPI_err p _); [discriminate |].
    destruct (ListenAndServe_err p _); [discriminate |].
    by injection Hserve as _ <-.
Qed.

(** C9: with an empty GITHUB_SECRET the process logs the fatal entry and
    exits with code 1, never reaching the server; with a non-empty one no
    such entry is logged and how [main] ends is left to the bot connection
    and to [ListenAndServe]. *)
Theorem start_requires_secret :
  (os_Getenv p "GITHUB_SECRET" = "" ->
   main env Version p
   = ([logrus.mkEntry logrus.InfoLevel [] (Some "Init Star %s") [logrus.AString Version];
       secret_fatal],
      Exited 1))
  /\ (os_Getenv p "GITHUB_SECRET" ≠ "" ->
      (secret_fatal ∉ fst (main env Version p))
      /\ snd (main env Version p) = connect_and_serve env Version p).
Proof.
  split.
  - intros Hs. unfold main. rewrite getenv_empty_fallback, Hs. reflexivity.
  - intros Hs. destruct (main_past_secret Hs) as (H1 & H2 & _). by split.
Qed.

(** C4 (as amended): when TELEGRAM_TOKEN or TELEGRAM_CHAT is empty at
    process start (and the secret is set), the absence is logged at error
    level and neither check stops the process: [main] goes on to connect
    the bot with the token as it is.  From there it panics exactly when
    [NewBotAPI] returns an error for that token, and otherwise serves
    (or exits if [ListenAndServe] fails). *)
Theorem telegram_settings_not_checked_fatally :
  os_Getenv p "GITHUB_SECRET" ≠ "" ->
  os_Getenv p "TELEGRAM_TOKEN" = "" \/ os_Getenv p "TELEGRAM_CHAT" = "" ->
  (os_Getenv p "TELEGRAM_TOKEN" = "" ->
   plain logrus.ErrorLevel "Telegram token not set" ∈ fst (main env Version p))
  /\ (os_Getenv p "TELEGRAM_CHAT" = "" ->
      plain logrus.ErrorLevel "Telegram Chat ID not set" ∈ fst (main env Version p))
  /\ snd (main env Version p) = connect_and_serve env Version p
  /\ (snd (main env Version p) = Panicked
      <-> is_Some (NewBotAPI_err p (os_Getenv p "TELEGRAM_TOKEN"))).
Proof.
  intros Hs _. destruct (main_past_secret Hs) as (H1 & _ & H3 & H4).
  repeat split; try done.
  - rewrite H1. unfold connect_and_serve. rewrite getenv_empty_fallback.
    destruct (NewBotAPI_err p _); [by eexists |].
    by destruct (ListenAndServe_err p _).
  - rewrite H1. unfold connect_and_serve. rewrite getenv_empty_fallback.
    by intros [e ->].
Qed.

End StartUp.

(** ** The properties at sample inputs *)

(** C1, as stated, fails: the body of the answer to the watch request is
    not "OK" alone; the acknowledgment text follows it. *)
Lemma watch_star_body_is_not_OK :
  (http.Method Runs.watch_good = "POST"
   /\ http.URL_Path Runs.watch_good = "/webhook"
   /\ event_of Runs.watch_good = "watch"
   /\ webhook.valid_signature Samples.codec0 "s3cret" Runs.watch_good = true
   /\ webhook.Unmarshal Samples.codec0 (http.Body Runs.watch_good)
      = (Samples.star_payload, None))
  /\ length (outbound Samples.s0 (Samples.run Runs.watch_good)) = 1%nat
  /\ http.body (st_w (Samples.run Runs.watch_good)) = "OKEvent received. Have a nice day"
  /\ http.body (st_w (Samples.run Runs.watch_good)) ≠ "OK".
Proof. by vm_compute. Qed.

(** The amended C1 at the sample watch request with the accepted signature. *)
Lemma watch_star_notifies_witness :
  (event_of Runs.watch_good = "watch"
   /\ webhook.valid_signature Samples.codec0 "s3cret" Runs.watch_good = true
   /\ webhook.Unmarshal Samples.codec0 (http.Body Runs.watch_good)
      = (Samples.star_payload, None))
  /\ http.body (st_w (Samples.run Runs.watch_good)) = "OK" +:+ acknowledgment
  /\ exists msg, outbound Samples.s0 (Samples.run Runs.watch_good) = [msg]
                 /\ strings.Contains (tgbotapi.Text msg) "42" = true.
Proof.
  assert (He : event_of Runs.watch_good = "watch") by (vm_compute; reflexivity).
  assert (Hv : webhook.valid_signature Samples.codec0 "s3cret" Runs.watch_good = true)
    by (vm_compute; reflexivity).
  assert (Hb : http.Body Runs.watch_good ≠ "") by discriminate.
  destruct (watch_star_notifies Samples.env0 "s3cret" 7 "dev" Runs.watch_good Samples.s0
              Samples.star_payload eq_refl eq_refl He Hv Hb eq_refl eq_refl eq_refl eq_refl)
    as (_ & Hbody & msg & Ho & _ & _ & _ & H42 & _).
  split; [by repeat split |]. split; [exact Hbody |].
  exists msg. by split.
Defined.

(** C2, as stated, fails: a watch request with a wrong signature is
    absorbed without any error-level entry. *)
Lemma invalid_watch_signature_logs_nothing :
  (http.Method Runs.watch_bad = "POST"
   /\ http.URL_Path Runs.watch_bad = "/webhook"
   /\ webhook.valid_signature Samples.codec0 "s3cret" Runs.watch_bad = false)
  /\ http.status (st_w (Samples.run Runs.watch_bad)) = 200
  /\ outbound Samples.s0 (Samples.run Runs.watch_bad) = []
  /\ logrus.errors (logged Samples.s0 (Samples.run Runs.watch_bad)) = [].
Proof. by vm_compute. Qed.

(** The amended C2 at the sample watch request with a refused signature
    of eight bytes, on which [hook.Parse] returns. *)
Lemma invalid_signature_absorbed_witness :
  webhook.valid_signature Samples.codec0 "s3cret" Runs.watch_bad = false
  /\ webhook.Parse Samples.codec0 "s3cret" Runs.watch_bad [webhook.WatchEvent]
     = webhook.Returns webhook.nilPayload (Some webhook.ErrHMACVerificationFailed)
  /\ exists s',
       conn_serve Samples.env0 "s3cret" 7 "dev" Runs.watch_bad Samples.s0 = Answered s'
       /\ http.status (st_w s') = 200
       /\ http.body (st_w s') = "Event received. Have a nice day"
       /\ logrus.errors (logged Samples.s0 s') = [].
Proof.
  assert (Hv : webhook.valid_signature Samples.codec0 "s3cret" Runs.watch_bad = false)
    by (by vm_compute).
  assert (HP : webhook.Parse Samples.codec0 "s3cret" Runs.watch_bad [webhook.WatchEvent]
               = webhook.Returns webhook.nilPayload (Some webhook.ErrHMACVerificationFailed))
    by (by vm_compute).
  destruct (invalid_signature_absorbed Samples.env0 "s3cret" 7 "dev" Runs.watch_bad
              Samples.s0 eq_refl eq_refl ltac:(discriminate) Hv
              ltac:(intros H; vm_compute in H; discriminate H))
    as (s' & Hc & Hs & Hb & _ & Hl).
  split; [exact Hv |]. split; [exact HP |].
  exists s'. rewrite orb_true_r in Hl. exact (conj Hc (conj Hs (conj Hb Hl))).
Defined.

(** C3, as stated, fails: a push request with a valid signature logs one
    error-level entry, carrying the event header. *)
Lemma push_event_logs_error :
  (http.Method Runs.push_good = "POST"
   /\ http.URL_Path Runs.push_good = "/webhook"
   /\ webhook.valid_signature Samples.codec0 "s3cret" Runs.push_good = true
   /\ event_of Runs.push_good = "push")
  /\ http.status (st_w (Samples.run Runs.push_good)) = 200
  /\ logrus.errors (logged Samples.s0 (Samples.run Runs.push_good)) = [event_entry "push"].
Proof. by vm_compute. Qed.

(** The amended C3 at the sample push request. *)
Lemma other_event_logged_witness :
  event_of Runs.push_good = "push"
  /\ logrus.errors (logged Samples.s0 (Samples.run Runs.push_good)) = [event_entry "push"].
Proof.
  assert (He : event_of Runs.push_good = "push") by (by vm_compute).
  destruct (other_event_logged Samples.env0 "s3cret" 7 "dev" Runs.push_good Samples.s0
              eq_refl eq_refl ltac:(by vm_compute) ltac:(by rewrite He))
    as (_ & _ & _ & Hl).
  rewrite He in Hl. exact (conj He Hl).
Defined.

(** C7: not every POST to /webhook is answered with status 200.  The
    watch request with a body and the three-byte signature "abc" is a
    signature mismatch; [hook.Parse] panics on it, nothing recovers the
    panic before the server does, and the connection is closed without
    any response (nothing is logged and no message goes out). *)
Theorem short_signature_gets_no_response :
  http.Method Runs.watch_short = "POST"
  /\ http.URL_Path Runs.watch_short = "/webhook"
  /\ event_of Runs.watch_short = "watch"
  /\ http.Get (http.Header Runs.watch_short) "X-Hub-Signature" = "abc"
  /\ webhook.valid_signature Samples.codec0 "s3cret" Runs.watch_short = false
  /\ webhook.Parse Samples.codec0 "s3cret" Runs.watch_short [webhook.WatchEvent]
     = webhook.Panics
  /\ exists s',
       conn_serve Samples.env0 "s3cret" 7 "dev" Runs.watch_short Samples.s0 = Aborted s'
       /\ st_log s' = [] /\ st_sent s' = [].
Proof.
  do 6 (split; [by vm_compute |]).
  eexists. split.
  - apply conn_serve_Aborted. by vm_compute.
  - split; reflexivity.
Qed.

(** C10 at the sample watch request with the accepted signature. *)
Lemma webhook_body_ends_with_acknowledgment_witness :
  strings.HasSuffix (http.body (st_w (Samples.run Runs.watch_good)))
                    "Event received. Have a nice day" = true.
Proof.
  exact (proj1 (webhook_body_ends_with_acknowledgment Samples.env0 "s3cret" 7 "dev"
                  Runs.watch_good Samples.s0 eq_refl eq_refl)).
Defined.

(** C4, as stated, fails: with the token missing, the error is logged and
    start-up goes on, but the bot connection with the empty token is
    refused and the process panics. *)
Lemma empty_token_panics :
  (os_Getenv Runs.proc_no_token "GITHUB_SECRET" = "s3cret"
   /\ os_Getenv Runs.proc_no_token "TELEGRAM_TOKEN" = "")
  /\ plain logrus.ErrorLevel "Telegram token not set"
     ∈ fst (main Samples.env0 "dev" Runs.proc_no_token)
  /\ logrus.level <$> last (fst (main Samples.env0 "dev" Runs.proc_no_token))
     = Some logrus.PanicLevel
  /\ snd (main Samples.env0 "dev" Runs.proc_no_token) = Panicked.
Proof.
  split; [by vm_compute |]. split; [| by vm_compute].
  vm_compute. apply list_elem_of_further, list_elem_of_here.
Qed.

(** The amended C4 at a process with no chat id: the error is logged and
    the server is up, with chat id 0. *)
Lemma telegram_settings_not_checked_fatally_witness :
  (os_Getenv Runs.proc_no_chat "GITHUB_SECRET" ≠ ""
   /\ os_Getenv Runs.proc_no_chat "TELEGRAM_CHAT" = "")
  /\ plain logrus.ErrorLevel "Telegram Chat ID not set"
     ∈ fst (main Samples.env0 "dev" Runs.proc_no_chat)
  /\ snd (main Samples.env0 "dev" Runs.proc_no_chat)
     = Serving "0.0.0.0:8080" (srv_Handler Samples.env0 "s3cret" 0 "dev").
Proof.
  assert (Hs : os_Getenv Runs.proc_no_chat "GITHUB_SECRET" ≠ "") by (by vm_compute).
  assert (Hc : os_Getenv Runs.proc_no_chat "TELEGRAM_CHAT" = "") by (by vm_compute).
  destruct (telegram_settings_not_checked_fatally Samples.env0 "dev" Runs.proc_no_chat
              Hs (or_intror Hc)) as (_ & Hlog & Hend & _).
  split; [by split |]. split; [exact (Hlog Hc) |].
  rewrite Hend. reflexivity.
Defined.


(** C6, as stated, fails: a handler that takes 1.5 ms is recorded with
    latency 2, not 1. *)
Lemma latency_1500us_recorded_as_2 :
  let next := router Samples.env0 "s3cret" 7 "dev" in
  let d := elapsed Runs.s15 (exec (next Runs.health_request) (started Runs.s15)) in
  (d = 1500000 /\ 1000000 <= d < 2000000)
  /\ (last_entry (exec (logging Samples.env0 next Runs.health_request) Runs.s15)
      ≫= (fun e => logrus.field e "latency")) = Some (logrus.FInt 2)
  /\ logrus.FInt 2 ≠ logrus.FInt 1.
Proof. by vm_compute. Qed.

(** The amended C6 at a handler that takes 1.5 ms. *)
Lemma latency_is_ceiling_witness :
  let next := router Samples.env0 "s3cret" 7 "dev" in
  let d := elapsed Runs.s15 (exec (next Runs.health_request) (started Runs.s15)) in
  1000000 <= d < 2000000
  /\ exists e,
       last_entry (exec (logging Samples.env0 next Runs.health_request) Runs.s15) = Some e
       /\ logrus.field e "latency" = Some (logrus.FInt 2).
Proof.
  cbv zeta.
  assert (Hd : 1000000
               <= elapsed Runs.s15
                    (exec (router Samples.env0 "s3cret" 7 "dev" Runs.health_request)
                          (started Runs.s15))
               < 2000000) by (by vm_compute).
  split; [exact Hd |].
  exact (latency_is_ceiling Samples.env0
           (router Samples.env0 "s3cret" 7 "dev") Runs.health_request Runs.s15 Hd).
Defined.

(** C8 at a request with X-Forwarded-For and no X-Real-Ip. *)
Lemma client_address_precedence_witness :
  exists e,
    last_entry (exec (logging Samples.env0 healthHandler Runs.health_request) Runs.s15)
    = Some e
    /\ logrus.field e "clientIP" = Some (logrus.FString "203.0.113.9").
Proof.
  destruct (client_address_precedence Samples.env0 healthHandler Runs.health_request
              Runs.s15) as (e & ip & Hl & Hf & _ & Hx & _).
  exists e. split; [exact Hl |]. rewrite Hf, Hx; by vm_compute.
Defined.

(** C9 at a process with no secret, and at one with a secret. *)
Lemma start_requires_secret_witness :
  os_Getenv Runs.proc_no_secret "GITHUB_SECRET" = ""
  /\ snd (main Samples.env0 "dev" Runs.proc_no_secret) = Exited 1
  /\ snd (main Samples.env0 "dev" Runs.proc_no_chat)
     = Serving "0.0.0.0:8080" (srv_Handler Samples.env0 "s3cret" 0 "dev").
Proof.
  destruct (start_requires_secret Samples.env0 "dev" Runs.proc_no_secret) as [Hno _].
  destruct (start_requires_secret Samples.env0 "dev" Runs.proc_no_chat) as [_ Hyes].
  split; [reflexivity |]. split.
  - by rewrite (Hno eq_refl).
  - destruct Hyes as [_ ->]; [by vm_compute | reflexivity].
Defined.

(** * More of the program *)

(** ** Decimal printing and parsing *)

Lemma uint_value_revapp (d d' : Decimal.uint) :
  Z.of_N (DecimalPos.Unsigned.of_lu (Decimal.revapp d d')) = uint_value d (Z.of_N (DecimalPos.Unsigned.of_lu d')).
Proof.
  revert d'. induction d as [| d IH | d IH | d IH | d IH | d IH | d IH | d IH | d IH | d IH | d IH];
    intros d'; cbn [Decimal.revapp uint_value]; [reflexivity | ..];
    rewrite IH; f_equal; cbn [DecimalPos.Unsigned.of_lu]; lia.
Qed.

Lemma uint_value_of_uint (d : Decimal.uint) : Z.of_uint d = uint_value d 0.
Proof.
  unfold Z.of_uint. rewrite DecimalPos.Unsigned.of_uint_alt. unfold Decimal.rev.
  by rewrite uint_value_revapp.
Qed.

Lemma uint_value_ge (d : Decimal.uint) : forall acc, 0 <= acc -> acc <= uint_value d acc.
Proof.
  induction d as [| d IH | d IH | d IH | d IH | d IH | d IH | d IH | d IH | d IH | d IH];
    intros acc Hacc; cbn [uint_value]; [lia | ..];
    (etrans; [| apply IH]); lia.
Qed.

(** The digit loop reads back what the printer wrote, as long as the
    number fits 64 bits. *)
Lemma ParseUint_loop_string_of_uint (d : Decimal.uint) :
  forall n, 0 <= n -> uint_value d n <= strconv.maxUint64 ->
  strconv.ParseUint_loop (NilEmpty.string_of_uint d) n = (uint_value d n, None).
Proof.
  induction d as [| d IH | d IH | d IH | d IH | d IH | d IH | d IH | d IH | d IH | d IH];
    intros n Hn Hmax; cbn [NilEmpty.string_of_uint strconv.ParseUint_loop uint_value] in *;
    [reflexivity | ..];
    match goal with
    | |- context [strconv.digit_of ?c] =>
        let k := eval vm_compute in (strconv.digit_of c) in
        change (strconv.digit_of c) with k
    end; cbv iota beta;
    match goal with
    | H : uint_value d ?a <= _ |- _ =>
        pose proof (uint_value_ge d a ltac:(lia)) as Hge
    end;
    unfold strconv.maxUint64 in *;
    change (2 ^ 64 - 1) with 18446744073709551615 in *;
    change (18446744073709551615 / 10 + 1) with 1844674407370955162;
    (destruct (Z.leb_spec 1844674407370955162 n); [lia |]);
    match goal with
    | |- context [18446744073709551615 <? ?a] => destruct (Z.ltb_spec 18446744073709551615 a); [lia |]
    end;
    rewrite ?Z.add_0_r; apply IH; lia.
Qed.

Lemma string_of_uint_digit (d : Decimal.uint) :
  d <> Decimal.Nil ->
  exists c s, NilEmpty.string_of_uint d = String c s
              /\ Ascii.eqb c "-" = false /\ Ascii.eqb c "+" = false.
Proof.
  destruct d; [done | ..]; intros _; cbn [NilEmpty.string_of_uint]; by eexists _, _.
Qed.

Lemma ParseUint_to_uint (p : positive) :
  Z.pos p <= strconv.maxUint64 ->
  strconv.ParseUint (NilEmpty.string_of_uint (Pos.to_uint p)) = (Z.pos p, None).
Proof.
  intros Hp.
  destruct (string_of_uint_digit _ (DecimalPos.Unsigned.to_uint_nonnil p)) as (c & s & Hs & _).
  unfold strconv.ParseUint. rewrite Hs, <- Hs.
  rewrite ParseUint_loop_string_of_uint; rewrite <- ?uint_value_of_uint;
    unfold Z.of_uint; rewrite ?DecimalPos.Unsigned.of_to; done.
Qed.

Lemma FormatInt_pos (p : positive) :
  strconv.FormatInt (Z.pos p) = NilEmpty.string_of_uint (Pos.to_uint p).
Proof.
  unfold strconv.FormatInt. cbn [Z.to_int NilZero.string_of_int].
  pose proof (DecimalPos.Unsigned.to_uint_nonnil p). by destruct (Pos.to_uint p).
Qed.

Lemma FormatInt_neg (p : positive) :
  strconv.FormatInt (Z.neg p) = String "-" (NilEmpty.string_of_uint (Pos.to_uint p)).
Proof.
  unfold strconv.FormatInt. cbn [Z.to_int NilZero.string_of_int].
  pose proof (DecimalPos.Unsigned.to_uint_nonnil p). by destruct (Pos.to_uint p).
Qed.

(** [ParseInt] reads back every [int64] that [FormatInt] printed. *)
Lemma ParseInt_FormatInt (i : Z) :
  strconv.minInt64 <= i <= strconv.maxInt64 ->
  strconv.ParseInt (strconv.FormatInt i) = (i, None).
Proof.
  unfold strconv.minInt64, strconv.maxInt64.
  change (2 ^ 63) with 9223372036854775808. intros Hi.
  destruct i as [| p | p].
  - reflexivity.
  - rewrite FormatInt_pos.
    destruct (string_of_uint_digit _ (DecimalPos.Unsigned.to_uint_nonnil p)) as (c & s & Hs & Hm & Hp).
    unfold strconv.ParseInt. rewrite Hs, Hm, Hp. cbn [orb]. rewrite <- Hs.
    rewrite ParseUint_to_uint by (unfold strconv.maxUint64; change (2 ^ 64) with 18446744073709551616; lia).
    change (2 ^ 63) with 9223372036854775808. cbn [negb andb].
    destruct (Z.leb_spec 9223372036854775808 (Z.pos p)); [lia | done].
  - rewrite FormatInt_neg. unfold strconv.ParseInt.
    change (Ascii.eqb "-" "-") with true. change (Ascii.eqb "-" "+") with false.
    cbn [orb].
    rewrite ParseUint_to_uint by (unfold strconv.maxUint64; change (2 ^ 64) with 18446744073709551616; lia).
    change (2 ^ 63) with 9223372036854775808. cbn [negb andb].
    destruct (Z.ltb_spec 9223372036854775808 (Z.pos p)); [lia | done].
Qed.


(** Whatever the text, [ParseInt] returns an [int64], and 0 on a syntax
    error. *)
Lemma ParseUint_loop_nonneg (s : string) :
  forall n, 0 <= n -> 0 <= fst (strconv.ParseUint_loop s n).
Proof.
  induction s as [| c s IH]; intros n Hn; cbn [strconv.ParseUint_loop]; [done |].
  destruct (strconv.digit_of c) as [d |] eqn:Ed; [| done].
  assert (0 <= d).
  { unfold strconv.digit_of in Ed.
    destruct (_ && _) eqn:E; [| done]. injection Ed as <-.
    apply andb_true_iff in E. lia. }
  match goal with |- context [if ?b then _ else _] => destruct b end; [done |].
  match goal with |- context [if ?b then _ else _] => destruct b end; [done |].
  apply IH. lia.
Qed.

Lemma ParseInt_range (s : string) :
  strconv.minInt64 <= fst (strconv.ParseInt s) <= strconv.maxInt64
  /\ (snd (strconv.ParseInt s) = Some strconv.ErrSyntax -> fst (strconv.ParseInt s) = 0).
Proof.
  unfold strconv.minInt64, strconv.maxInt64, strconv.ParseInt.
  change (2 ^ 63) with 9223372036854775808.
  destruct s as [| c s]; [by split |].
  match goal with |- context [strconv.ParseUint ?d] => generalize d; intros digits end.
  assert (Hnn : 0 <= fst (strconv.ParseUint digits)).
  { unfold strconv.ParseUint. destruct digits; [done |]. by apply ParseUint_loop_nonneg. }
  destruct (strconv.ParseUint digits) as [un [[] |]]; cbn [fst snd] in *; [by split | ..];
    destruct (Ascii.eqb c "-"); cbn [negb andb];
    repeat match goal with
           | |- context [?a <=? ?b] => destruct (Z.leb_spec a b)
           | |- context [?a <? ?b] => destruct (Z.ltb_spec a b)
           end; cbn [fst snd]; split; (done || lia).
Qed.

(** ** The routes *)

Section RouterFacts.

Context (env : Environ).
Variables (secret : string) (telegramChatID : Z) (Version : string).

Local Abbreviation run := (serve (srv_Handler env secret telegramChatID Version)).
Local Abbreviation the_router := (router env secret telegramChatID Version).

(** What the router does with a request, by path and method. *)
Lemma router_cases (r : http.Request) :
  the_router r =
  if String.eqb (http.URL_Path r) "/version" then
    if String.eqb (http.Method r) "GET" then versionHandler env Version r
    else mux.methodNotAllowed r
  else if String.eqb (http.URL_Path r) "/health" then
    if String.eqb (http.Method r) "GET" then healthHandler r
    else mux.methodNotAllowed r
  else if String.eqb (http.URL_Path r) "/webhook" then
    if String.eqb (http.Method r) "POST" then webhookHandler env secret telegramChatID r
    else mux.methodNotAllowed r
  else mux.NotFound r.
Proof.
  unfold router, mux.ServeHTTP.
  cbn [mux.dispatch mux.route_path mux.route_method mux.route_handler].
  destruct (String.eqb (http.URL_Path r) "/version") eqn:Ev.
  - apply String.eqb_eq in Ev. rewrite Ev.
    destruct (String.eqb (http.Method r) "GET"); reflexivity.
  - destruct (String.eqb (http.URL_Path r) "/health") eqn:Eh.
    + apply String.eqb_eq in Eh. rewrite Eh.
      destruct (String.eqb (http.Method r) "GET"); reflexivity.
    + destruct (String.eqb (http.URL_Path r) "/webhook");
        [destruct (String.eqb (http.Method r) "POST") |]; reflexivity.
Qed.

(** Only the webhook route logs or sends anything, and no route reads the
    clock. *)
Lemma router_quiet (r : http.Request) (s : State) :
  ~ (http.Method r = "POST" /\ http.URL_Path r = "/webhook") ->
  let s' := exec (the_router r) s in
  st_log s' = st_log s /\ st_sent s' = st_sent s
  /\ st_clock s' = st_clock s /\ st_tick s' = st_tick s.
Proof.
  intros Hnot. cbv zeta. rewrite router_cases.
  destruct (String.eqb (http.URL_Path r) "/version");
    [destruct (String.eqb (http.Method r) "GET"); by repeat split |].
  destruct (String.eqb (http.URL_Path r) "/health");
    [destruct (String.eqb (http.Method r) "GET"); by repeat split |].
  destruct (String.eqb (http.URL_Path r) "/webhook") eqn:Ep; [| by repeat split].
  destruct (String.eqb (http.Method r) "POST") eqn:Em; [| by repeat split].
  exfalso. apply Hnot. by split; apply String.eqb_eq.
Qed.

(** A request to any route but the webhook, through the whole chain: one
    access entry, no message. *)
Lemma serve_quiet (r : http.Request) (s : State) :
  ~ (http.Method r = "POST" /\ http.URL_Path r = "/webhook") ->
  logged s (run r s)
  = [access_entry env (traced r (request_id r s)) (idle_elapsed r s)]
  /\ outbound s (run r s) = []
  /\ st_w (run r s)
     = http.finishRequest
         (st_w (exec (the_router (traced r (request_id r s)))
                     (started (after_tracing r
                        (mkState http.newResponse (st_log s) (st_sent s)
                                 (st_clock s) (st_tick s)))))).
Proof.
  intros Hnot. unfold srv_Handler. rewrite serve_run. cbv zeta.
  match goal with
  | |- context [exec (router _ _ _ _ ?r') ?s1] =>
      destruct (router_quiet r' s1 Hnot) as (Hl & Hs & Hc & Ht)
  end.
  unfold logged, outbound, elapsed, idle_elapsed. cbn [st_log st_sent st_w].
  rewrite Hl, Hs, Hc, Ht. cbn [st_log st_sent st_clock st_tick started after_tracing].
  rewrite drop_app_length. rewrite <- (app_nil_r (st_sent s)) at 2.
  rewrite drop_app_length. by repeat split.
Qed.

(** X1: GET /health is answered with status 200 and the body "OK", whatever
    else the request holds; it sends no chat message and logs nothing
    but the access entry. *)
Theorem health_answers_OK (r : http.Request) (s : State) :
  http.Method r = "GET" -> http.URL_Path r = "/health" ->
  http.status (st_w (run r s)) = 200
  /\ http.body (st_w (run r s)) = "OK"
  /\ outbound s (run r s) = []
  /\ logged s (run r s)
     = [access_entry env (traced r (request_id r s)) (idle_elapsed r s)].
Proof.
  intros Hm Hp.
  assert (Hnot : ~ (http.Method r = "POST" /\ http.URL_Path r = "/webhook")).
  { intros [_ H]. by rewrite Hp in H. }
  destruct (serve_quiet r s Hnot) as (Hl & Ho & Hw).
  rewrite Hw, router_cases.
  cbn [http.URL_Path http.Method traced http.WithContext]. rewrite Hp, Hm.
  by repeat split.
Qed.

(** X2: GET /version is answered with status 200 and exactly the encoder's
    rendering of the version map; it sends no chat message and logs
    nothing but the access entry. *)
Theorem version_answers_encoded (r : http.Request) (s : State) :
  http.Method r = "GET" -> http.URL_Path r = "/version" ->
  http.status (st_w (run r s)) = 200
  /\ http.body (st_w (run r s)) = Encode_version env Version
  /\ outbound s (run r s) = []
  /\ logged s (run r s)
     = [access_entry env (traced r (request_id r s)) (idle_elapsed r s)].
Proof.
  intros Hm Hp.
  assert (Hnot : ~ (http.Method r = "POST" /\ http.URL_Path r = "/webhook")).
  { intros [_ H]. by rewrite Hp in H. }
  destruct (serve_quiet r s Hnot) as (Hl & Ho & Hw).
  rewrite Hw, router_cases.
  cbn [http.URL_Path http.Method traced http.WithContext]. rewrite Hp, Hm.
  by repeat split.
Qed.

(** X3: A registered path asked with another method than its own (anything
    but POST on /webhook, anything but GET on /version and /health) is
    answered 405 with an empty body: the route's handler does not run, so
    no message goes out and nothing but the access entry is logged. *)
Theorem wrong_method_not_allowed (r : http.Request) (s : State) :
  (http.URL_Path r = "/webhook" /\ http.Method r <> "POST")
  \/ ((http.URL_Path r = "/version" \/ http.URL_Path r = "/health")
      /\ http.Method r <> "GET") ->
  http.status (st_w (run r s)) = 405
  /\ http.body (st_w (run r s)) = ""
  /\ outbound s (run r s) = []
  /\ logged s (run r s)
     = [access_entry env (traced r (request_id r s)) (idle_elapsed r s)].
Proof.
  intros Hcase.
  assert (Hnot : ~ (http.Method r = "POST" /\ http.URL_Path r = "/webhook")).
  { intros [Hm Hp]. destruct Hcase as [[_ H] | [[H | H] _]];
      [done | by rewrite Hp in H | by rewrite Hp in H]. }
  destruct (serve_quiet r s Hnot) as (Hl & Ho & Hw).
  rewrite Hw, router_cases.
  cbn [http.URL_Path http.Method traced http.WithContext].
  destruct Hcase as [[Hp Hm] | [[Hp | Hp] Hm]]; rewrite Hp;
    apply String.eqb_neq in Hm; rewrite Hm; by repeat split.
Qed.

End RouterFacts.

Section WatchFacts.

Context (env : Environ).
Variables (secret : string) (telegramChatID : Z) (Version : string).

Local Abbreviation run := (serve (srv_Handler env secret telegramChatID Version)).

(** [Parse] hands out a [WatchPayload] only for a POST with the watch
    event header, a body, and (under a non-empty secret) a signature the
    hook accepts; the payload and the error are the decoder's. *)
Lemma Parse_watch_inv (r : http.Request) (pl : webhook.WatchPayload) (err : option error) :
  webhook.results (webhook.Parse (codec env) secret r [webhook.WatchEvent])
  = (webhook.isWatchPayload pl, err) ->
  http.Method r = "POST" /\ event_of r = "watch" /\ http.Body r <> ""
  /\ (secret <> "" -> webhook.valid_signature (codec env) secret r = true)
  /\ webhook.Unmarshal (codec env) (http.Body r) = (pl, err).
Proof.
  intros HP.
  destruct (String.eqb (http.Method r) "POST") eqn:Em.
  2:{ unfold webhook.Parse in HP. rewrite Em in HP. discriminate HP. }
  apply String.eqb_eq in Em.
  destruct (decide (event_of r = "watch")) as [He | He].
  2:{ rewrite (Parse_other_event _ _ r Em He) in HP. discriminate HP. }
  rewrite (Parse_watch _ _ r Em He) in HP. cbv zeta in HP.
  unfold webhook.valid_signature, webhook.signature_ok.
  destruct (String.eqb (http.Body r) "") eqn:Eb; [discriminate HP |].
  apply String.eqb_neq in Eb.
  destruct (String.eqb secret "") eqn:Es.
  - apply String.eqb_eq in Es. cbn [webhook.results] in HP.
    destruct (webhook.Unmarshal _ _) as [pl' err']. cbn [fst snd] in HP.
    injection HP as <- <-. by repeat split.
  - destruct (String.eqb (http.Get (http.Header r) "X-Hub-Signature") "") eqn:Esig;
      [discriminate HP |].
    destruct (slice_from _ 5) as [mac |]; [| discriminate HP].
    destruct (webhook.mac_ok _ _ _ mac) eqn:Eok; [| discriminate HP].
    cbn [webhook.results] in HP.
    destruct (webhook.Unmarshal _ _) as [pl' err']. cbn [fst snd] in HP.
    injection HP as <- <-. by repeat split.
Qed.

(** X4: No request makes the server send more than one chat message, and a
    message goes out only for a POST to /webhook that names the watch
    event, has a body and, under the non-empty secret of a served
    handler, carries a signature the hook accepts. *)
Theorem message_only_for_signed_watch (r : http.Request) (s : State) :
  (length (outbound s (run r s)) <= 1)%nat
  /\ (outbound s (run r s) <> [] ->
      http.Method r = "POST" /\ http.URL_Path r = "/webhook"
      /\ event_of r = "watch" /\ http.Body r <> ""
      /\ (secret <> "" -> webhook.valid_signature (codec env) secret r = true)).
Proof.
  destruct (decide (http.Method r = "POST" /\ http.URL_Path r = "/webhook")) as [[Hm Hp] | Hnot].
  - pose proof (serve_webhook env secret telegramChatID Version r s Hm Hp) as H.
    cbv zeta in H.
    destruct (webhook.results (webhook.Parse _ _ _ _)) as [[| pl | ev] err] eqn:EP;
      destruct H as (_ & _ & Ho); rewrite Ho; (split; [cbn; lia |]); try done.
    intros _. destruct (Parse_watch_inv r pl err EP) as (_ & He & Hb & Hv & _).
    by repeat split.
  - destruct (serve_quiet env secret telegramChatID Version r s Hnot) as (_ & Ho & _).
    rewrite Ho. split; [cbn; lia | done].
Qed.

(** X5: A signed watch request always notifies: whatever payload the decoder
    returns, and also when it reports an error next to it, one message
    goes to the configured chat, in markdown mode, with the template text
    naming the repository, its star count in decimal and the sender URL;
    the decoder's error is not logged. *)
Theorem signed_watch_always_notifies (r : http.Request) (s : State) :
  http.Method r = "POST" -> http.URL_Path r = "/webhook" ->
  event_of r = "watch" -> http.Body r <> "" ->
  webhook.valid_signature (codec env) secret r = true ->
  let pl := fst (webhook.Unmarshal (codec env) (http.Body r)) in
  exists msg,
    outbound s (run r s) = [msg]
    /\ tgbotapi.ChatID msg = telegramChatID
    /\ tgbotapi.ParseMode msg = "markdown"
    /\ tgbotapi.Text msg = rawMsgS pl
    /\ strings.HasPrefix (tgbotapi.Text msg) "New Github star for *" = true
    /\ strings.Contains (tgbotapi.Text msg) (webhook.Name (webhook.Repository pl)) = true
    /\ strings.Contains (tgbotapi.Text msg)
         (strconv.FormatInt (webhook.StargazersCount (webhook.Repository pl))) = true
    /\ strings.Contains (tgbotapi.Text msg) (webhook.HTMLURL (webhook.Sender pl)) = true
    /\ (snd (webhook.Unmarshal (codec env) (http.Body r)) <> Some webhook.ErrEventNotFound ->
        logrus.errors (logged s (run r s)) = []).
Proof.
  intros Hm Hp He Hb Hv pl.
  pose proof (serve_webhook env secret telegramChatID Version r s Hm Hp) as H.
  cbv zeta in H. rewrite (Parse_watch_valid _ _ r Hm He Hb Hv) in H.
  destruct H as (_ & Hl & Ho). fold pl in Hl, Ho.
  exists (hook_message telegramChatID pl). rewrite Ho, Hl.
  destruct (rawMsgS_Contains pl) as (Hn & Hc & Hu).
  do 4 (split; [reflexivity |]).
  split; [apply HasPrefix_append |].
  do 3 (split; [done |]).
  intros Hne. rewrite !errors_app, errors_access, errors_hook_watch_entries, app_nil_r.
  unfold hook_errors.
  destruct (snd (webhook.Unmarshal (codec env) (http.Body r))) as [e |]; [| done].
  destruct (decide (e = webhook.ErrEventNotFound)) as [-> |]; done.
Qed.

End WatchFacts.

Section MoreServerFacts.

Context (env : Environ).
Variables (secret : string) (telegramChatID : Z) (Version : string).

Local Abbreviation run := (serve (srv_Handler env secret telegramChatID Version)).

(** X6: When [bot.Send] fails on the notification of a signed, well decoded
    watch request, the caller still gets status 200 and "OK" followed by
    the acknowledgment; the message was handed to [bot.Send] once and not
    again; the failure is logged at info level, after the "Is Watch
    request" entry, and nothing is logged at error level. *)
Theorem send_failure_absorbed (r : http.Request) (s : State) (e : error) :
  http.Method r = "POST" -> http.URL_Path r = "/webhook" ->
  event_of r = "watch" -> http.Body r <> "" ->
  webhook.valid_signature (codec env) secret r = true ->
  snd (webhook.Unmarshal (codec env) (http.Body r)) = None ->
  let msg := hook_message telegramChatID (fst (webhook.Unmarshal (codec env) (http.Body r))) in
  Send_err env msg = Some e ->
  http.status (st_w (run r s)) = 200
  /\ http.body (st_w (run r s)) = "OK" +:+ acknowledgment
  /\ outbound s (run r s) = [msg]
  /\ logged s (run r s)
     = [ logrus.mkEntry logrus.InfoLevel [] None [logrus.AString "Is Watch request"];
         logrus.mkEntry logrus.InfoLevel [] (Some "Message can't send, %v") [logrus.AError e];
         access_entry env (traced r (request_id r s)) (idle_elapsed r s) ]
  /\ logrus.errors (logged s (run r s)) = [].
Proof.
  intros Hm Hp He Hb Hv Hd msg Hsend.
  pose proof (serve_webhook env secret telegramChatID Version r s Hm Hp) as H.
  cbv zeta in H. rewrite (Parse_watch_valid _ _ r Hm He Hb Hv), Hd in H.
  destruct H as (Hw & Hl & Ho). fold msg in Hl, Ho.
  rewrite Hw, Hl, Ho. unfold hook_errors, hook_watch_entries. rewrite Hsend.
  by repeat split.
Qed.



(** X8: [logging] falls back on "unknown" when the context of the request
    holds no correlation id, or holds one that is not a string, and on
    "unknow" when the host name cannot be read; otherwise it records the
    id and the host name it found. *)
Theorem logging_fallbacks (next : Handler) (r : http.Request) (s : State) :
  exists e,
    last_entry (exec (logging env next r) s) = Some e
    /\ (http.Value (http.ctx r) requestIDKey = None ->
        logrus.field e "requestID" = Some (logrus.FString "unknown"))
    /\ (forall i, http.Value (http.ctx r) requestIDKey = Some (http.anyInt i) ->
        logrus.field e "requestID" = Some (logrus.FString "unknown"))
    /\ (forall id, http.Value (http.ctx r) requestIDKey = Some (http.anyString id) ->
        logrus.field e "requestID" = Some (logrus.FString id))
    /\ (forall err, Hostname env = inr err ->
        logrus.field e "hostname" = Some (logrus.FString "unknow"))
    /\ (forall h, Hostname env = inl h ->
        logrus.field e "hostname" = Some (logrus.FString h)).
Proof.
  unfold last_entry. rewrite logging_run. cbv zeta. cbn [st_log]. rewrite last_snoc.
  eexists. split; [reflexivity |].
  cbn [logrus.field logrus.Data access_entry List.find String.eqb Ascii.eqb
       Bool.eqb fst snd fmap option_fmap option_map].
  unfold context_id.
  repeat split; intros; by repeat match goal with H : _ = _ |- _ => rewrite H end.
Qed.

End MoreServerFacts.

Section MoreStartUp.

Context (env : Environ) (Version : string) (p : Process).

(** X10: [main] ends up serving exactly when the secret is set, the bot
    connects and the listener comes up; it then serves on the address
    [listen:port], with the handler built from the secret and the parsed
    chat id. *)
Theorem main_serves_iff :
  ((exists addr h, snd (main env Version p) = Serving addr h)
   <-> (os_Getenv p "GITHUB_SECRET" <> ""
        /\ NewBotAPI_err p (os_Getenv p "TELEGRAM_TOKEN") = None
        /\ ListenAndServe_err p (listen p +:+ ":" +:+ port p) = None))
  /\ (forall addr h,
        snd (main env Version p) = Serving addr h ->
        addr = listen p +:+ ":" +:+ port p
        /\ h = srv_Handler env (os_Getenv p "GITHUB_SECRET") (telegramChatID_of p) Version).
Proof.
  assert (Hfwd : forall addr h,
             snd (main env Version p) = Serving addr h ->
             (os_Getenv p "GITHUB_SECRET" <> ""
              /\ NewBotAPI_err p (os_Getenv p "TELEGRAM_TOKEN") = None
              /\ ListenAndServe_err p (listen p +:+ ":" +:+ port p) = None)
             /\ addr = listen p +:+ ":" +:+ port p
             /\ h = srv_Handler env (os_Getenv p "GITHUB_SECRET") (telegramChatID_of p)
                      Version).
  { intros addr h Hserve.
    destruct (decide (os_Getenv p "GITHUB_SECRET" = "")) as [He | Hne].
    - exfalso. unfold main in Hserve. rewrite getenv_empty_fallback, He in Hserve.
      discriminate.
    - destruct (main_past_secret env Version p Hne) as (Hend & _).
      rewrite Hend in Hserve. unfold connect_and_serve, Addr in Hserve.
      rewrite !getenv_empty_fallback in Hserve.
      destruct (NewBotAPI_err p _); [discriminate |].
      destruct (ListenAndServe_err p _); [discriminate |].
      injection Hserve as <- <-. done. }
  split; [split |].
  - intros (addr & h & Hserve). exact (proj1 (Hfwd addr h Hserve)).
  - intros (Hne & Hbot & Hlisten).
    destruct (main_past_secret env Version p Hne) as (Hend & _).
    rewrite Hend. unfold connect_and_serve, Addr.
    rewrite !getenv_empty_fallback, Hbot, Hlisten. eauto.
  - intros addr h Hserve. exact (proj2 (Hfwd addr h Hserve)).
Qed.

(** X11: When the listener cannot come up (the bind fails), [main] logs
    "Serve at: " with the address, then the error at fatal level, and the
    process exits with code 1. *)
Theorem bind_failure_is_fatal (errServe : error) :
  os_Getenv p "GITHUB_SECRET" <> "" ->
  NewBotAPI_err p (os_Getenv p "TELEGRAM_TOKEN") = None ->
  ListenAndServe_err p (listen p +:+ ":" +:+ port p) = Some errServe ->
  snd (main env Version p) = Exited 1
  /\ exists before,
       fst (main env Version p)
       = before
         ++ [ logrus.mkEntry logrus.InfoLevel [] None
                [logrus.AString "Serve at: "; logrus.AString (listen p +:+ ":" +:+ port p)];
              logrus.mkEntry logrus.FatalLevel [] (Some "Server err %s")
                [logrus.AError errServe] ].
Proof.
  intros Hs Hb Hl. rewrite <- !getenv_empty_fallback in *.
  unfold main. rewrite (eqb_empty_false _ Hs), Hb. cbv zeta. rewrite Hl.
  split; [reflexivity |]. cbn [fst]. eexists. rewrite <- app_assoc. reflexivity.
Qed.

(** X12: The chat id is what [strconv.ParseInt] makes of TELEGRAM_CHAT, its
    error dropped: the number itself when the variable holds an [int64]
    in decimal, 0 when it is unset or empty, and in every case an
    [int64]. *)
Theorem chat_id_from_environment :
  (os_Getenv p "TELEGRAM_CHAT" = "" -> telegramChatID_of p = 0)
  /\ (forall n, strconv.minInt64 <= n <= strconv.maxInt64 ->
                os_Getenv p "TELEGRAM_CHAT" = strconv.FormatInt n ->
                telegramChatID_of p = n)
  /\ strconv.minInt64 <= telegramChatID_of p <= strconv.maxInt64.
Proof.
  unfold telegramChatID_of. rewrite getenv_empty_fallback. repeat split.
  - by intros ->.
  - intros n Hn ->. by rewrite ParseInt_FormatInt.
  - apply ParseInt_range.
  - apply ParseInt_range.
Qed.

(** X13: The port is the [-port] flag when given, else the PORT variable when
    it is set and not empty, else 8080; the address is the [-listen]
    flag, else LISTEN, else 0.0.0.0. *)
Theorem address_precedence :
  (forall v, flag_port p = Some v -> port p = v)
  /\ (flag_port p = None -> os_Getenv p "PORT" <> "" -> port p = os_Getenv p "PORT")
  /\ (flag_port p = None -> os_Getenv p "PORT" = "" -> port p = "8080")
  /\ (forall v, flag_listen p = Some v -> listen p = v)
  /\ (flag_listen p = None -> os_Getenv p "LISTEN" <> "" -> listen p = os_Getenv p "LISTEN")
  /\ (flag_listen p = None -> os_Getenv p "LISTEN" = "" -> listen p = "0.0.0.0").
Proof.
  unfold port, listen, getenv.
  repeat split.
  - by intros v ->.
  - intros -> H. cbn [default]. by destruct (os_Getenv p "PORT").
  - by intros -> ->.
  - by intros v ->.
  - intros -> H. cbn [default]. by destruct (os_Getenv p "LISTEN").
  - by intros -> ->.
Qed.

End MoreStartUp.

(** ** The command line *)

Section InitFacts.

Context (env : Environ) (Version : string) (cl : CommandLine) (p : Process).

(** X15: Before [main], the process can only leave with code 0: on a refused
    argument and on -help it prints the flag defaults, -help taking
    precedence over -v; on -v alone it prints the version and nothing
    else.  In these cases nothing is logged and the secret is not looked
    at; in all others the process is [main]. *)
Theorem init_leaves_with_code_0 :
  (refused cl = true \/ help cl = true ->
   exists out, process env Version cl p = (out ++ [Defaults], ([], Exited 0))
               /\ VersionText Version ∉ out ++ [Defaults])
  /\ (refused cl = false -> help cl = false -> printVersion cl = true ->
      process env Version cl p = ([VersionText Version], ([], Exited 0)))
  /\ (refused cl = false -> help cl = false -> printVersion cl = false ->
      process env Version cl p = ([], main env Version p))
  /\ (forall code, snd (init Version cl) = Leave code -> code = 0).
Proof.
  unfold process, init. repeat split.
  - intros [-> | Hh].
    + exists [ParseError]. split; [reflexivity |].
      intros H. repeat (apply elem_of_cons in H as [H | H]; [discriminate |]).
      by apply elem_of_nil in H.
    + rewrite Hh. destruct (refused cl).
      * exists [ParseError]. split; [reflexivity |].
        intros H. repeat (apply elem_of_cons in H as [H | H]; [discriminate |]).
        by apply elem_of_nil in H.
      * exists []. split; [reflexivity |].
        intros H. repeat (apply elem_of_cons in H as [H | H]; [discriminate |]).
        by apply elem_of_nil in H.
  - by intros -> -> ->.
  - by intros -> -> ->.
  - intros code. destruct (refused cl), (help cl), (printVersion cl);
      cbn [snd]; by intros [= <-] || discriminate.
Qed.

End InitFacts.

(** ** From the environment to the chat *)

Section Deployment.

Context (env : Environ) (Version : string) (p : Process).

(** X14: Start-up and handler together: when [main] serves and TELEGRAM_CHAT
    holds the [int64] [n] in decimal, the handler it serves answers a
    signed watch request (signed under GITHUB_SECRET) with exactly one
    message, sent to chat [n]. *)
Theorem served_notifications_reach_the_chat
    (addr : string) (h : Handler) (n : Z) (r : http.Request) (s : State) :
  snd (main env Version p) = Serving addr h ->
  strconv.minInt64 <= n <= strconv.maxInt64 ->
  os_Getenv p "TELEGRAM_CHAT" = strconv.FormatInt n ->
  http.Method r = "POST" -> http.URL_Path r = "/webhook" ->
  event_of r = "watch" -> http.Body r <> "" ->
  webhook.valid_signature (codec env) (os_Getenv p "GITHUB_SECRET") r = true ->
  exists msg, outbound s (serve h r s) = [msg] /\ tgbotapi.ChatID msg = n.
Proof.
  intros Hserve Hn Hchat Hm Hp He Hb Hv.
  destruct (served_secret_nonempty env Version p addr h Hserve) as [_ ->].
  assert (Hid : telegramChatID_of p = n).
  { unfold telegramChatID_of. by rewrite getenv_empty_fallback, Hchat, ParseInt_FormatInt. }
  rewrite Hid.
  pose proof (serve_webhook env (os_Getenv p "GITHUB_SECRET") n Version r s Hm Hp) as H.
  cbv zeta in H. rewrite (Parse_watch_valid _ _ r Hm He Hb Hv) in H.
  destruct H as (_ & _ & Ho). eexists. split; [exact Ho | reflexivity].
Qed.

End Deployment.

(** ** These properties at sample inputs *)

(** GET /health on the sample server. *)
Lemma health_answers_OK_witness :
  http.status (st_w (Samples.run Runs.health_request)) = 200
  /\ http.body (st_w (Samples.run Runs.health_request)) = "OK".
Proof.
  destruct (health_answers_OK Samples.env0 "s3cret" 7 "dev" Runs.health_request Samples.s0
              eq_refl eq_refl) as (Hs & Hb & _).
  exact (conj Hs Hb).
Defined.

(** GET /version on the sample server, whose encoder is the identity. *)
Lemma version_answers_encoded_witness :
  http.status (st_w (Samples.run MoreRuns.version_request)) = 200
  /\ http.body (st_w (Samples.run MoreRuns.version_request)) = "dev".
Proof.
  destruct (version_answers_encoded Samples.env0 "s3cret" 7 "dev" MoreRuns.version_request
              Samples.s0 eq_refl eq_refl) as (Hs & Hb & _).
  exact (conj Hs Hb).
Defined.

(** GET /webhook on the sample server. *)
Lemma wrong_method_not_allowed_witness :
  (http.URL_Path MoreRuns.get_webhook = "/webhook" /\ http.Method MoreRuns.get_webhook <> "POST")
  /\ http.status (st_w (Samples.run MoreRuns.get_webhook)) = 405
  /\ outbound Samples.s0 (Samples.run MoreRuns.get_webhook) = [].
Proof.
  assert (H : http.URL_Path MoreRuns.get_webhook = "/webhook"
              /\ http.Method MoreRuns.get_webhook <> "POST") by (split; [reflexivity | discriminate]).
  destruct (wrong_method_not_allowed Samples.env0 "s3cret" 7 "dev" MoreRuns.get_webhook
              Samples.s0 (or_introl H)) as (Hs & _ & Ho & _).
  exact (conj H (conj Hs Ho)).
Defined.

(** The sample watch request: one message, to chat 7. *)
Lemma signed_watch_always_notifies_witness :
  webhook.valid_signature Samples.codec0 "s3cret" Runs.watch_good = true
  /\ exists msg, outbound Samples.s0 (Samples.run Runs.watch_good) = [msg]
                 /\ tgbotapi.ChatID msg = 7.
Proof.
  assert (Hv : webhook.valid_signature Samples.codec0 "s3cret" Runs.watch_good = true)
    by (vm_compute; reflexivity).
  assert (He : event_of Runs.watch_good = "watch") by (vm_compute; reflexivity).
  assert (Hb : http.Body Runs.watch_good <> "") by discriminate.
  destruct (signed_watch_always_notifies Samples.env0 "s3cret" 7 "dev" Runs.watch_good
              Samples.s0 eq_refl eq_refl He Hb Hv) as (msg & Ho & Hc & _).
  split; [exact Hv |]. exists msg. by split.
Defined.

(** The sample watch request when Telegram refuses the message. *)
Lemma send_failure_absorbed_witness :
  Send_err MoreRuns.env_send_fails
    (hook_message 7 Samples.star_payload) = Some (OtherError "Forbidden")
  /\ http.status
       (st_w (serve (srv_Handler MoreRuns.env_send_fails "s3cret" 7 "dev")
                    Runs.watch_good Samples.s0)) = 200
  /\ length (outbound Samples.s0
               (serve (srv_Handler MoreRuns.env_send_fails "s3cret" 7 "dev")
                      Runs.watch_good Samples.s0)) = 1%nat.
Proof.
  assert (Hv : webhook.valid_signature (codec MoreRuns.env_send_fails) "s3cret"
                 Runs.watch_good = true) by (vm_compute; reflexivity).
  assert (He : event_of Runs.watch_good = "watch") by (vm_compute; reflexivity).
  assert (Hb : http.Body Runs.watch_good <> "") by discriminate.
  destruct (send_failure_absorbed MoreRuns.env_send_fails "s3cret" 7 "dev" Runs.watch_good
              Samples.s0 (OtherError "Forbidden") eq_refl eq_refl He Hb Hv eq_refl eq_refl)
    as (Hs & _ & Ho & _).
  split; [reflexivity |]. split; [exact Hs | by rewrite Ho].
Defined.


(** A configured process whose port is taken. *)
Lemma bind_failure_is_fatal_witness :
  ListenAndServe_err MoreRuns.proc_port_taken "0.0.0.0:9000"
  = Some (OtherError "address already in use")
  /\ snd (main Samples.env0 "dev" MoreRuns.proc_port_taken) = Exited 1.
Proof.
  assert (Hs : os_Getenv MoreRuns.proc_port_taken "GITHUB_SECRET" <> "") by (by vm_compute).
  destruct (bind_failure_is_fatal Samples.env0 "dev" MoreRuns.proc_port_taken
              (OtherError "address already in use") Hs eq_refl eq_refl) as [Hexit _].
  exact (conj eq_refl Hexit).
Defined.

(** The health handler under the half-millisecond clock. *)
Lemma latency_up_to_1ms_witness :
  elapsed Samples.s0 (exec (healthHandler Runs.health_request) (started Samples.s0)) = 500000
  /\ exists e,
       last_entry (exec (logging Samples.env0 healthHandler Runs.health_request) Samples.s0)
       = Some e
       /\ logrus.field e "latency" = Some (logrus.FInt 1).
Proof.
  assert (Hd : 0 <= elapsed Samples.s0
                      (exec (healthHandler Runs.health_request) (started Samples.s0))
               <= 1000000) by (by vm_compute).
  split; [by vm_compute |].
  exact (latency_up_to_1ms Samples.env0 healthHandler Runs.health_request Samples.s0 Hd).
Defined.

(** The fully configured sample process: the message goes to chat -1001. *)
Lemma served_notifications_reach_the_chat_witness :
  os_Getenv MoreRuns.proc_full "TELEGRAM_CHAT" = strconv.FormatInt (-1001)
  /\ exists msg,
       outbound Samples.s0
         (serve (srv_Handler Samples.env0 "s3cret" (-1001) "dev") Runs.watch_good Samples.s0)
       = [msg]
       /\ tgbotapi.ChatID msg = -1001.
Proof.
  assert (Hc : os_Getenv MoreRuns.proc_full "TELEGRAM_CHAT" = strconv.FormatInt (-1001))
    by (vm_compute; reflexivity).
  assert (Hv : webhook.valid_signature (codec Samples.env0)
                 (os_Getenv MoreRuns.proc_full "GITHUB_SECRET") Runs.watch_good = true)
    by (vm_compute; reflexivity).
  assert (He : event_of Runs.watch_good = "watch") by (vm_compute; reflexivity).
  assert (Hb : http.Body Runs.watch_good <> "") by discriminate.
  assert (Hs : os_Getenv MoreRuns.proc_full "GITHUB_SECRET" <> "") by (by vm_compute).
  assert (Hserve : snd (main Samples.env0 "dev" MoreRuns.proc_full)
                   = Serving "0.0.0.0:8080" (srv_Handler Samples.env0 "s3cret" (-1001) "dev")).
  { destruct (main_past_secret Samples.env0 "dev" MoreRuns.proc_full Hs) as [-> _].
    unfold connect_and_serve.
    replace (getenv MoreRuns.proc_full "TELEGRAM_TOKEN" "") with "123:abc"
      by (by vm_compute).
    replace (Addr MoreRuns.proc_full) with "0.0.0.0:8080" by (by vm_compute).
    replace (getenv MoreRuns.proc_full "GITHUB_SECRET" "") with "s3cret"
      by (by vm_compute).
    replace (telegramChatID_of MoreRuns.proc_full) with (-1001) by (by vm_compute).
    reflexivity. }
  split; [exact Hc |].
  assert (Hn : strconv.minInt64 <= -1001 <= strconv.maxInt64)
    by (split; intros H; vm_compute in H; discriminate H).
  assert (Hm : http.Method Runs.watch_good = "POST") by reflexivity.
  assert (Hp : http.URL_Path Runs.watch_good = "/webhook") by reflexivity.
  exact (served_notifications_reach_the_chat Samples.env0 "dev" MoreRuns.proc_full
           "0.0.0.0:8080" (srv_Handler Samples.env0 "s3cret" (-1001) "dev") (-1001)
           Runs.watch_good Samples.s0 Hserve Hn Hc Hm Hp He Hb Hv).
Defined.
